(** * dev-templates: the two example data processors

    A shallow embedding of

    - [examples/python/data_processor.py]   (line mode: [read_data],
      [analyze_data], [process], [main]), and
    - [examples/python/data_processor 2.py] (tabular mode: [load_data],
      [process_data], [save_results], [main]),

    with the properties of the file-based analysis pipeline
    (load, compute statistics, persist) stated over it.

    Python values are modelled as follows.  A [str] is a list of Unicode
    code points ([N]); an [int] is a [Z]; a [float] is the rational number
    the double denotes ([Q]), and [/] rounds the quotient to 53 significant
    bits, to nearest and ties to even, as CPython does.  Exceptions are
    values of [exn]; code that can raise, log or touch the file system runs
    in the monad [M] over a [world] made of a file system, the records
    emitted through [logging], and the lines printed on standard output. *)

From Stdlib Require Import ZArith NArith QArith Qround Qabs Qpower.
From Stdlib Require Import List Ascii String Lia.
From Stdlib Require Import Sorted Permutation Lqa.
From stdpp Require Import gmap strings list fin_maps.

Local Open Scope Z_scope.

(* ===================================================================== *)
(** ** Python builtins used by the scripts *)
(* ===================================================================== *)

Module Py.

(** A [str]: a sequence of code points. *)
Definition text := list N.

(** An ASCII literal as a [str]. *)
Definition lit (s : string) : text :=
  List.map N_of_ascii (list_ascii_of_string s).

(** Exceptions the two scripts can meet, by class, with the path or the
    message they carry. [PandasError] stands for the parser's own classes
    ([EmptyDataError], [ParserError]). *)
Inductive exn : Type :=
| FileNotFoundError (path : string)
| IsADirectoryError (path : string)
| NotADirectoryError (path : string)
| FileExistsError (path : string)
| UnicodeDecodeError
| ZeroDivisionError
| AttributeError (msg : string)
| ValueError (msg : string)
| PandasError (msg : string).

(** Python numbers as the statistics hold them. *)
Inductive num : Type :=
| PyInt (z : Z)
| PyFloat (q : Q).

(** *** Floats

    A double is [m * 2^e] with [m] of at most 53 bits.  The exponent range
    of the format is left out: the numbers rounded here are the mean of
    the lengths of some strings and the cells of an [int64] column, zero
    or between [2^-63] and [2^63] in magnitude (a [str] or a list holds
    fewer than [2^63] items), far from where a double overflows or loses
    bits. *)

(** [a * 2^-e] and [b * 2^e] kept integral: their quotient is
    [(a / b) / 2^e]. *)
Definition num_scaled (a e : Z) : Z := a * 2 ^ Z.max 0 (- e).
Definition den_scaled (b e : Z) : Z := b * 2 ^ Z.max 0 e.

(** The integer nearest to [n / d], the even one of two that are equally
    near. *)
Definition round_half_even (n d : Z) : Z :=
  let m := n / d in
  match 2 * (n mod d) ?= d with
  | Lt => m
  | Gt => m + 1
  | Eq => if Z.even m then m else m + 1
  end.

(** The exponent [e] for which [(a / b) / 2^e] has 53 bits. *)
Definition exponent (a b : Z) : Z :=
  let e := Z.log2 a - Z.log2 b - 52 in
  if num_scaled a e <? 2 ^ 52 * den_scaled b e then e - 1 else e.

(** [m * 2^e], in lowest terms. *)
Definition scale (m e : Z) : Q :=
  if 0 <=? e then inject_Z (m * 2 ^ e)
  else Qred (m # Z.to_pos (2 ^ (- e))).

(** [a / b] for positive [a] and [b], rounded to 53 bits. *)
Definition round_pos (a b : Z) : Q :=
  let e := exponent a b in
  scale (round_half_even (num_scaled a e) (den_scaled b e)) e.

(** The double nearest to the rational [q]. *)
Definition to_float (q : Q) : Q :=
  match Qnum q with
  | Z0 => 0%Q
  | Zpos a => round_pos (Zpos a) (Zpos (Qden q))
  | Zneg a => (- round_pos (Zpos a) (Zpos (Qden q)))%Q
  end.

(** [a / b] on ints: true division, which raises [ZeroDivisionError]
    when [b = 0] ([None] here) and else gives the double nearest to the
    quotient. *)
Definition truediv (a b : Z) : option num :=
  match b with
  | Z0 => None
  | Zpos p => Some (PyFloat (to_float (a # p)))
  | Zneg p => Some (PyFloat (to_float ((- a) # p)))
  end.

(** The builtin [sum] over ints: starts from 0 and adds from the left. *)
Definition sum (l : list Z) : Z := fold_left Z.add l 0.

(** [len] of a list or of a [str]. *)
Definition len {A} (l : list A) : Z := Z.of_nat (List.length l).

(** [str.isspace] on one code point (CPython's [_PyUnicode_IsWhitespace]). *)
Definition isspace (c : N) : bool :=
  ((0x09 <=? c) && (c <=? 0x0D) ||
   (0x1C <=? c) && (c <=? 0x20) ||
   (c =? 0x85) || (c =? 0xA0) || (c =? 0x1680) ||
   (0x2000 <=? c) && (c <=? 0x200A) ||
   (c =? 0x2028) || (c =? 0x2029) || (c =? 0x202F) ||
   (c =? 0x205F) || (c =? 0x3000))%N.

Fixpoint dropwhile {A} (p : A -> bool) (l : list A) : list A :=
  match l with
  | [] => []
  | x :: l' => if p x then dropwhile p l' else l
  end.

(** [str.lstrip()], [str.rstrip()], [str.strip()] with no argument. *)
Definition lstrip (t : text) : text := dropwhile isspace t.
Definition rstrip (t : text) : text := rev (dropwhile isspace (rev t)).
Definition strip (t : text) : text := rstrip (lstrip t).

(** Truth value of a [str] or a list: non-empty. *)
Definition truthy {A} (l : list A) : bool :=
  match l with [] => false | _ => true end.

(** *** Text-mode reading: UTF-8 decoding and universal newlines *)

Definition byte_of (a : ascii) : N := N_of_ascii a.

Definition is_cont (b : N) : bool := ((0x80 <=? b) && (b <=? 0xBF))%N.

(** Strict UTF-8, as the [utf-8] codec with [errors='strict']: shortest
    form only, no surrogates, nothing above U+10FFFF. *)
Fixpoint utf8_decode (bs : list N) : option text :=
  match bs with
  | [] => Some []
  | b0 :: r0 =>
      if (b0 <? 0x80)%N then
        match utf8_decode r0 with Some t => Some (b0 :: t) | None => None end
      else if (b0 <? 0xC2)%N then None
      else if (b0 <? 0xE0)%N then
        match r0 with
        | b1 :: r1 =>
            if is_cont b1 then
              match utf8_decode r1 with
              | Some t => Some (((b0 - 0xC0) * 64 + (b1 - 0x80))%N :: t)
              | None => None
              end
            else None
        | _ => None
        end
      else if (b0 <? 0xF0)%N then
        match r0 with
        | b1 :: (b2 :: r2) =>
            let c := ((b0 - 0xE0) * 4096 + (b1 - 0x80) * 64 + (b2 - 0x80))%N in
            if is_cont b1 && is_cont b2
               && (0x800 <=? c)%N && negb ((0xD800 <=? c) && (c <=? 0xDFFF))%N
            then
              match utf8_decode r2 with
              | Some t => Some (c :: t)
              | None => None
              end
            else None
        | _ => None
        end
      else if (b0 <? 0xF5)%N then
        match r0 with
        | b1 :: (b2 :: (b3 :: r3)) =>
            let c := ((b0 - 0xF0) * 262144 + (b1 - 0x80) * 4096
                      + (b2 - 0x80) * 64 + (b3 - 0x80))%N in
            if is_cont b1 && is_cont b2 && is_cont b3
               && (0x10000 <=? c)%N && (c <=? 0x10FFFF)%N
            then
              match utf8_decode r3 with
              | Some t => Some (c :: t)
              | None => None
              end
            else None
        | _ => None
        end
      else None
  end.

Definition LF : N := 10%N.
Definition CR : N := 13%N.

(** [newline=None]: on input [\r\n] and a lone [\r] both become [\n]. *)
Fixpoint universal_newlines (t : text) : text :=
  match t with
  | [] => []
  | c :: rest =>
      if (c =? CR)%N then
        LF :: match rest with
              | [] => []
              | c' :: rest' =>
                  if (c' =? LF)%N then universal_newlines rest'
                  else universal_newlines rest
              end
      else c :: universal_newlines rest
  end.

(** Iterating a text file: each line keeps its final [\n]; a last line
    without one is still a line, unless it is empty. [cur] holds the line
    being read, reversed. *)
Fixpoint lines_from (cur : text) (t : text) : list text :=
  match t with
  | [] => match cur with [] => [] | _ => [rev cur] end
  | c :: rest =>
      if (c =? LF)%N then rev (c :: cur) :: lines_from [] rest
      else lines_from (c :: cur) rest
  end.

Definition iter_lines (t : text) : list text :=
  lines_from [] (universal_newlines t).

End Py.

(* ===================================================================== *)
(** ** Exceptions and effects *)
(* ===================================================================== *)

Module Eff.
Import Py.

Inductive result (A : Type) : Type :=
| Ok (a : A)
| Raise (e : exn).
Arguments Ok {A} a.
Arguments Raise {A} e.

(** A computation over a state [St] that returns or raises. *)
Definition M (St A : Type) : Type := St -> result A * St.

Definition ret {St A} (a : A) : M St A := fun s => (Ok a, s).
Definition raise {St A} (e : exn) : M St A := fun s => (Raise e, s).

Definition bind {St A B} (m : M St A) (k : A -> M St B) : M St B :=
  fun s =>
    match m s with
    | (Ok a, s') => k a s'
    | (Raise e, s') => (Raise e, s')
    end.

(** [try: m except Exception as e: h e] *)
Definition try_except {St A} (m : M St A) (h : exn -> M St A) : M St A :=
  fun s =>
    match m s with
    | (Ok a, s') => (Ok a, s')
    | (Raise e, s') => h e s'
    end.

Definition get {St} : M St St := fun s => (Ok s, s).
Definition modify {St} (f : St -> St) : M St unit := fun s => (Ok tt, f s).

(** Run a computation on a component of a larger state. *)
Definition zoom {St Big A} (proj : Big -> St) (upd : St -> Big -> Big)
    (m : M St A) : M Big A :=
  fun b => let (r, s') := m (proj b) in (r, upd s' b).

Declare Scope eff_scope.
Delimit Scope eff_scope with eff.
Notation "x <- m ;; k" := (bind m (fun x => k))
  (at level 100, m at next level, right associativity) : eff_scope.
Notation "m ;;; k" := (bind m (fun _ => k))
  (at level 100, right associativity) : eff_scope.

End Eff.

(* ===================================================================== *)
(** ** The process environment: files, logging, standard output *)
(* ===================================================================== *)

Module OS.
Import Py Eff.
Local Open Scope eff_scope.

(** What a path names: a directory, or a file with its bytes. The file
    system maps each path, spelled as the program hands it to the
    operating system, to what it names; a path that is not in the map
    names nothing. *)
Inductive node : Type :=
| Dir
| File (content : string).

Inductive level : Type := INFO | ERROR.

(** What a log message was formatted from. *)
Inductive log_arg : Type :=
| NoArg
| ArgPath (p : string)
| ArgExn (e : exn).

Record log_record : Type := LogRecord
  { lvl : level; msg : string; arg : log_arg }.

Record world : Type := World
  { fs : gmap string node;
    log : list log_record;
    stdout : list (string * option num) }.

Definition set_fs (f : gmap string node) (w : world) : world :=
  {| fs := f; log := log w; stdout := stdout w |}.

(** [logger.info] and [logger.error]: one record on the handler that
    [logging.basicConfig] installs (standard error); no file is touched. *)
Definition logger (l : level) (m : string) (a : log_arg) : M world unit :=
  modify (fun w => {| fs := fs w;
                      log := log w ++ [LogRecord l m a];
                      stdout := stdout w |}).

Definition print (line : string) (v : option num) : M world unit :=
  modify (fun w => {| fs := fs w;
                      log := log w;
                      stdout := stdout w ++ [(line, v)] |}).

(** *** Paths *)

(** [s.split(sep)], with [cur] the piece being read, reversed. *)
Fixpoint split_from (sep : ascii) (cur s : list ascii) : list string :=
  match s with
  | [] => [string_of_list_ascii (rev cur)]
  | c :: s' =>
      if Ascii.eqb c sep then
        string_of_list_ascii (rev cur) :: split_from sep [] s'
      else split_from sep (c :: cur) s'
  end.

Definition str_split (sep : ascii) (s : string) : list string :=
  split_from sep [] (list_ascii_of_string s).

(** [posixpath.splitroot], without the drive: the root is ["//"] after
    exactly two leading slashes, ["/"] after one or more than two. *)
Definition splitroot (p : string) : string * string :=
  match p with
  | String "/" (String "/" (String "/" _ as rest)) => ("/", String "/" rest)
  | String "/" (String "/" rest) => ("//", rest)
  | String "/" rest => ("/", rest)
  | _ => ("", p)
  end%string.

Fixpoint join_slash (parts : list string) : string :=
  match parts with
  | [] => ""
  | [x] => x
  | x :: rest => (x ++ "/" ++ join_slash rest)
  end%string.

(** The parts [pathlib] keeps of the path below the root: not the empty
    ones, not ["."]. *)
Definition parts (rel : string) : list string :=
  List.filter (fun x => negb (String.eqb x "" || String.eqb x "."))
    (str_split "/" rel).

(** [str(Path(p))]: the root, then the parts joined by one slash; ["."]
    when nothing is left. *)
Definition Path (p : string) : string :=
  let (root, rel) := splitroot p in
  let s := (root ++ join_slash (parts rel))%string in
  if String.eqb s "" then "."%string else s.

(** The leading pieces of a path: what stands before each of its slashes,
    the root left out. *)
Fixpoint prefixes_from (cur s : list ascii) : list string :=
  match s with
  | [] => []
  | c :: s' =>
      (if Ascii.eqb c "/" then
         match cur with
         | [] => []
         | _ => [string_of_list_ascii (rev cur)]
         end
       else [])
      ++ prefixes_from (c :: cur) s'
  end.

Definition ancestors (p : string) : list string :=
  prefixes_from [] (list_ascii_of_string p).

Definition is_file (n : option node) : bool :=
  match n with
  | Some (File _) => true
  | _ => false
  end.

(** A path one of whose leading pieces is a regular file: the system
    refuses it with [ENOTDIR]. *)
Definition below_file (f : gmap string node) (p : string) : bool :=
  existsb (fun q => is_file (f !! q)) (ancestors p).

Arguments Path : simpl never.
Arguments ancestors : simpl never.
Arguments below_file : simpl never.

(** [Path.exists()], on the string of the path. *)
Definition exists_ (p : string) : M world bool :=
  w <- get ;; ret (bool_decide (is_Some (fs w !! p))).

(** Opening [p] for reading and taking all its bytes. *)
Definition read_bytes (p : string) : M world (list N) :=
  w <- get ;;
  match fs w !! p with
  | None =>
      if below_file (fs w) p then raise (NotADirectoryError p)
      else raise (FileNotFoundError p)
  | Some Dir => raise (IsADirectoryError p)
  | Some (File c) => ret (List.map byte_of (list_ascii_of_string c))
  end.

(** [open(p, 'r', encoding='utf-8')] read to the end. *)
Definition read_text (p : string) : M world text :=
  bs <- read_bytes p ;;
  match utf8_decode bs with
  | Some t => ret t
  | None => raise UnicodeDecodeError
  end.

(** [os.path.join(a, b)] for a relative [b]. *)
Definition ends_with_slash (a : string) : bool :=
  match rev (list_ascii_of_string a) with
  | c :: _ => Ascii.eqb c "/"%char
  | [] => false
  end.

Definition path_join (a b : string) : string :=
  if String.eqb a "" then b
  else if ends_with_slash a then (a ++ b)%string
  else (a ++ "/" ++ b)%string.

(** [mkdir(q)] unless [q] is there. *)
Definition mkdir_missing (f : gmap string node) (q : string)
  : gmap string node :=
  match f !! q with
  | None => <[q := Dir]> f
  | Some _ => f
  end.

(** The file system with [d] made a directory, and before it each of
    its leading pieces that was not there. *)
Definition with_dirs (d : string) (f : gmap string node)
  : gmap string node :=
  <[d := Dir]> (fold_left mkdir_missing (ancestors d) f).

(** [os.makedirs(d, exist_ok=True)]: fine when [d] is already a
    directory, [FileExistsError] when it is a file; the empty path and a
    path below a regular file are refused by [mkdir]; otherwise [d] is
    made, with the directories that lead to it. *)
Definition makedirs (d : string) : M world unit :=
  w <- get ;;
  match fs w !! d with
  | Some (File _) => raise (FileExistsError d)
  | Some Dir => ret tt
  | None =>
      if String.eqb d "" then raise (FileNotFoundError d)
      else if below_file (fs w) d then raise (NotADirectoryError d)
      else modify (set_fs (with_dirs d (fs w)))
  end.

(** Creating or truncating [p] and writing [c] to it. *)
Definition write_file (p : string) (c : string) : M world unit :=
  w <- get ;;
  match fs w !! p with
  | Some Dir => raise (IsADirectoryError p)
  | _ => modify (set_fs (<[p := File c]> (fs w)))
  end.

End OS.

(* ===================================================================== *)
(** ** Line mode: [examples/python/data_processor.py] *)
(* ===================================================================== *)

Module LineMode.
Import Py Eff OS.
Local Open Scope eff_scope.

Record DataProcessor : Type := { input_file : string }.

(** The dict built by [analyze_data], in insertion order. *)
Record Stats : Type :=
  { total_lines : Z;
    empty_lines : Z;
    avg_length : num }.

Definition items (s : Stats) : list (string * num) :=
  [("total_lines"%string, PyInt (total_lines s));
   ("empty_lines"%string, PyInt (empty_lines s));
   ("avg_length"%string, avg_length s)].

(** [DataProcessor.__init__]: the processor keeps [Path(input_file)];
    the message of the exception is built from the argument. *)
Definition init (path : string) : M world DataProcessor :=
  let self := {| input_file := Path path |} in
  found <- exists_ (input_file self) ;;
  if negb found then raise (FileNotFoundError path)
  else ret self.

(** [[line.strip() for line in f if line.strip()]] *)
Definition stripped_lines (f : list text) : list text :=
  List.map strip (List.filter (fun line => truthy (strip line)) f).

(** [DataProcessor.read_data] *)
Definition read_data (self : DataProcessor) : M world (list text) :=
  try_except
    (t <- read_text (input_file self) ;;
     ret (stripped_lines (iter_lines t)))
    (fun e =>
       logger ERROR "Error reading file: " (ArgExn e) ;;;
       raise e).

(** [sum(1 for line in data if not line)] *)
Definition count_empty (data : list text) : Z :=
  Py.sum (List.map (fun _ => 1)
            (List.filter (fun line => negb (truthy line)) data)).

(** [sum(len(line) for line in data)] *)
Definition total_length (data : list text) : Z :=
  Py.sum (List.map len data).

(** [DataProcessor.analyze_data] *)
Definition analyze_data (self : DataProcessor) (data : list text)
  : M world Stats :=
  avg <- (if truthy data then
            match truediv (total_length data) (len data) with
            | Some q => ret q
            | None => raise ZeroDivisionError
            end
          else ret (PyInt 0)) ;;
  ret {| total_lines := len data;
         empty_lines := count_empty data;
         avg_length := avg |}.

(** [DataProcessor.process] *)
Definition process (self : DataProcessor) : M world Stats :=
  logger INFO "Processing file: " (ArgPath (input_file self)) ;;;
  data <- read_data self ;;
  analyze_data self data.

(** [key.replace('_', ' ').title()] on an ASCII key. *)
Definition upper (c : ascii) : ascii :=
  let n := nat_of_ascii c in
  if ((97 <=? n) && (n <=? 122))%nat then ascii_of_nat (n - 32) else c.

Definition lower (c : ascii) : ascii :=
  let n := nat_of_ascii c in
  if ((65 <=? n) && (n <=? 90))%nat then ascii_of_nat (n + 32) else c.

Definition is_alpha (c : ascii) : bool :=
  let n := nat_of_ascii c in
  (((97 <=? n) && (n <=? 122)) || ((65 <=? n) && (n <=? 90)))%nat.

Fixpoint title_from (in_word : bool) (s : string) : string :=
  match s with
  | EmptyString => EmptyString
  | String c s' =>
      let c := if Ascii.eqb c "_"%char then " "%char else c in
      String (if in_word then lower c else upper c)
             (title_from (is_alpha c) s')
  end.

Definition title (key : string) : string := title_from false key.

Fixpoint print_items (l : list (string * num)) : M world unit :=
  match l with
  | [] => ret tt
  | (key, value) :: l' =>
      print (title key ++ ": ")%string (Some value) ;;; print_items l'
  end.

(** [main], given the parsed [input_file] argument; the value is the
    exit status ([sys.exit(1)] on any exception). *)
Definition main (path : string) : M world Z :=
  try_except
    (processor <- init path ;;
     results <- process processor ;;
     print (String (ascii_of_nat 10) "Analysis Results:") None ;;;
     print_items (items results) ;;;
     ret 0)
    (fun e =>
       logger ERROR "Error processing file: " (ArgExn e) ;;;
       ret 1).

End LineMode.

(* ===================================================================== *)
(** ** The pandas calls of the tabular script *)
(* ===================================================================== *)

(** The script touches a [DataFrame] through [len], [.columns],
    [.isnull().sum().to_dict()] and [.describe().to_dict()]; this module
    gives the frame and those four calls.  A frame is column-major, as in
    pandas: an index of [nrows] positions and labelled, typed columns. *)
Module Pandas.
Import Py Eff.

(** A Python object held in an [object] column read from text. *)
Inductive obj : Type :=
| OStr (s : string)
| OBool (b : bool).

Definition obj_eqb (a b : obj) : bool :=
  match a, b with
  | OStr s, OStr t => String.eqb s t
  | OBool x, OBool y => Bool.eqb x y
  | _, _ => false
  end.

(** A column with its dtype. [None] is NaN, the missing value; [int64]
    and [bool] columns cannot hold it. *)
Inductive Series : Type :=
| Int64 (v : list Z)
| Float64 (v : list (option Q))
| Bool (v : list bool)
| Object (v : list (option obj)).

Record DataFrame : Type := Frame
  { nrows : nat;
    cols : list (string * Series) }.

Definition series_len (s : Series) : nat :=
  match s with
  | Int64 v => List.length v
  | Float64 v => List.length v
  | Bool v => List.length v
  | Object v => List.length v
  end.

(** [df.columns] *)
Definition columns (df : DataFrame) : list string := List.map fst (cols df).

(** [len(df)]: the length of the index. *)
Definition df_len (df : DataFrame) : Z := Z.of_nat (nrows df).

(** A dict built from key/value pairs in order: a later pair replaces an
    earlier one with the same key. *)
Definition py_dict {V} (l : list (string * V)) : gmap string V :=
  list_to_map (rev l).

Definition is_none {A} (o : option A) : bool :=
  match o with None => true | Some _ => false end.

(** [s.isnull()] *)
Definition isnull (s : Series) : list bool :=
  match s with
  | Int64 v => List.map (fun _ => false) v
  | Float64 v => List.map is_none v
  | Bool v => List.map (fun _ => false) v
  | Object v => List.map is_none v
  end.

(** [.sum()] of a boolean column: the number of [True]. *)
Definition sum_bool (l : list bool) : Z :=
  Py.sum (List.map (fun b : bool => if b then 1 else 0) l).

(** [df.isnull().sum().to_dict()] *)
Definition isnull_sum (df : DataFrame) : list (string * Z) :=
  List.map (fun c => (fst c, sum_bool (isnull (snd c)))) (cols df).

Definition isnull_sum_to_dict (df : DataFrame) : gmap string Z :=
  py_dict (isnull_sum df).

(** *** [describe()] *)

(** How [Series.quantile] places a percentile between two order
    statistics. *)
Inductive interpolation : Type :=
| Linear
| Lower
| Higher
| Midpoint
| Nearest.

(** A cell of the summary frame.  [Mean l], [Std l] and [Quantile i q l]
    are the doubles that [Series.mean()], [Series.std()] and
    [Series.quantile(q, interpolation=i)] give for a column whose
    non-missing values are [l]: the results of numpy's floating-point
    reductions, which the script only receives. *)
Inductive value : Type :=
| NaN
| Float (q : Q)
| Mean (l : list Q)
| Std (l : list Q)
| Quantile (i : interpolation) (q : Q) (l : list Q)
| Int (z : Z)
| Obj (o : obj).

(** The columns [select_dtypes(include=[np.number, 'datetime'])] keeps. *)
Definition is_numeric (s : Series) : bool :=
  match s with
  | Int64 _ | Float64 _ => true
  | Bool _ | Object _ => false
  end.

Fixpoint somes {A} (l : list (option A)) : list A :=
  match l with
  | [] => []
  | Some a :: l' => a :: somes l'
  | None :: l' => somes l'
  end.

(** The non-missing numbers of a numeric column. *)
Definition numbers (s : Series) : list Q :=
  match s with
  | Int64 v => List.map inject_Z v
  | Float64 v => somes v
  | _ => []
  end.

Definition count_q (l : list Q) : Q := inject_Z (Z.of_nat (List.length l)).

Fixpoint insert_sorted (x : Q) (l : list Q) : list Q :=
  match l with
  | [] => [x]
  | y :: l' => if Qle_bool x y then x :: l else y :: insert_sorted x l'
  end.

Definition sort (l : list Q) : list Q := fold_right insert_sorted [] l.

(** [Series.min()] and [Series.max()], as the summary holds them: the
    least and the greatest value, made a float ([int64] cells above
    [2^53] are rounded); NaN when there is no value. *)
Definition minimum (l : list Q) : value :=
  match sort l with
  | [] => NaN
  | x :: _ => Float (to_float x)
  end.

Definition maximum (l : list Q) : value :=
  match rev (sort l) with
  | [] => NaN
  | x :: _ => Float (to_float x)
  end.

(** [describe_numeric_1d] with the default percentiles.  The count, the
    number of rows at most, is exact as a float. *)
Definition describe_numeric_1d (s : Series) : list (string * value) :=
  let l := numbers s in
  [("count"%string, Float (count_q l));
   ("mean"%string, Mean l);
   ("std"%string, Std l);
   ("min"%string, minimum l);
   ("25%"%string, Quantile Linear (1 # 4) l);
   ("50%"%string, Quantile Linear (1 # 2) l);
   ("75%"%string, Quantile Linear (3 # 4) l);
   ("max"%string, maximum l)].

(** The non-missing objects of a column, for the categorical summary. *)
Definition objects (s : Series) : list obj :=
  match s with
  | Object v => somes v
  | Bool v => List.map OBool v
  | _ => []
  end.

Definition occurrences (o : obj) (l : list obj) : nat :=
  List.length (List.filter (obj_eqb o) l).

Fixpoint distinct (l : list obj) : list obj :=
  match l with
  | [] => []
  | o :: l' => o :: List.filter (fun x => negb (obj_eqb o x)) (distinct l')
  end.

(** The most frequent object and its frequency, the head of
    [value_counts()]; among equally frequent ones the first met is kept
    here. *)
Fixpoint top_of (cands : list obj) (l : list obj) : option (obj * nat) :=
  match cands with
  | [] => None
  | o :: cands' =>
      let n := occurrences o l in
      match top_of cands' l with
      | Some (o', n') => if (n' <=? n)%nat then Some (o, n) else Some (o', n')
      | None => Some (o, n)
      end
  end.

(** [describe_categorical_1d] *)
Definition describe_categorical_1d (s : Series) : list (string * value) :=
  let l := objects s in
  let u := distinct l in
  [("count"%string, Int (len l));
   ("unique"%string, Int (len u));
   ("top"%string, match top_of u l with Some (o, _) => Obj o | None => NaN end);
   ("freq"%string,
     match top_of u l with
     | Some (_, n) => Int (Z.of_nat n)
     | None => NaN
     end)].

(** [select_describe_func] *)
Definition describe_1d (s : Series) : list (string * value) :=
  if is_numeric s then describe_numeric_1d s else describe_categorical_1d s.

(** [DataFrameDescriber._select_data] with [include=None, exclude=None]:
    the numeric columns, or every column when there is no numeric one. *)
Definition select_data (df : DataFrame) : list (string * Series) :=
  match List.filter (fun c => is_numeric (snd c)) (cols df) with
  | [] => cols df
  | numeric => numeric
  end.

(** [df.describe()], as the list of described columns. *)
Definition describe (df : DataFrame)
  : result (list (string * list (string * value))) :=
  match cols df with
  | [] => Raise (ValueError "Cannot describe a DataFrame without columns")
  | _ => Ok (List.map (fun c => (fst c, describe_1d (snd c))) (select_data df))
  end.

(** [.to_dict()] of the summary frame: column label, then statistic. *)
Definition summary_to_dict (d : list (string * list (string * value)))
  : gmap string (gmap string value) :=
  py_dict (List.map (fun c => (fst c, py_dict (snd c))) d).

End Pandas.

(* ===================================================================== *)
(** ** Tabular mode: [examples/python/data_processor 2.py] *)
(* ===================================================================== *)

Module Tabular.
Import Py Eff OS Pandas.
Local Open Scope eff_scope.

Record DataProcessor : Type :=
  { input_file : string;
    output_dir : string;
    data : option DataFrame }.

(** The dict built by [process_data]. *)
Record Stats : Type :=
  { row_count : Z;
    column_count : Z;
    missing_values : gmap string Z;
    numeric_stats : gmap string (gmap string value) }.

(** The processor object lives next to the process environment. *)
Record state : Type := State
  { env : world;
    self : DataProcessor }.

Definition set_env (w : world) (st : state) : state :=
  {| env := w; self := self st |}.

Definition set_data (d : option DataFrame) (st : state) : state :=
  {| env := env st;
     self := {| input_file := input_file (self st);
                output_dir := output_dir (self st);
                data := d |} |}.

(** An operation of the environment, run from a method. *)
Definition os {A} (m : M world A) : M state A := zoom env set_env m.

Definition lift {St A} (r : result A) : M St A := fun s => (r, s).

(** [DataProcessor.__init__] *)
Definition init (input output : string) : DataProcessor :=
  {| input_file := input; output_dir := output; data := None |}.

Definition no_data_msg : string := "No data loaded. Call load_data() first.".

Section Pipeline.

(** The text codecs of pandas, which the script only calls: the parser
    behind [pd.read_csv] (given the path and the bytes of the file), the
    writer behind [DataFrame.to_csv(index=False)], and
    [pd.DataFrame(stats).to_json]. *)
Variable parse_csv : string -> list N -> result DataFrame.
Variable to_csv : DataFrame -> string.
Variable to_json : Stats -> string.

(** [pd.read_csv(path)] *)
Definition read_csv (path : string) : M world DataFrame :=
  bs <- read_bytes path ;;
  lift (parse_csv path bs).

(** [DataProcessor.load_data] *)
Definition load_data : M state unit :=
  try_except
    (st <- get ;;
     df <- os (read_csv (input_file (self st))) ;;
     modify (set_data (Some df)) ;;;
     os (logger INFO "Successfully loaded data from "
           (ArgPath (input_file (self st)))))
    (fun e =>
       os (logger ERROR "Error loading data: " (ArgExn e)) ;;;
       raise e).

(** [DataProcessor.process_data] *)
Definition process_data : M state Stats :=
  st <- get ;;
  match data (self st) with
  | None => raise (ValueError no_data_msg)
  | Some df =>
      let rows := df_len df in
      let columns := len (columns df) in
      let missing := isnull_sum_to_dict df in
      summary <- lift (describe df) ;;
      let stats := {| row_count := rows;
                      column_count := columns;
                      missing_values := missing;
                      numeric_stats := summary_to_dict summary |} in
      os (logger INFO "Data processing completed" NoArg) ;;;
      ret stats
  end.

(** [DataProcessor.save_results] *)
Definition save_results (stats : Stats) : M state unit :=
  st <- get ;;
  os (makedirs (output_dir (self st))) ;;;
  let stats_file := path_join (output_dir (self st)) "statistics.json" in
  os (write_file stats_file (to_json stats)) ;;;
  os (logger INFO "Statistics saved to " (ArgPath stats_file)) ;;;
  let output_file := path_join (output_dir (self st)) "processed_data.csv" in
  st' <- get ;;
  match data (self st') with
  | None => raise (AttributeError "'NoneType' object has no attribute 'to_csv'")
  | Some df =>
      os (write_file output_file (to_csv df)) ;;;
      os (logger INFO "Processed data saved to " (ArgPath output_file))
  end.

(** The body of [main]'s [try] block on a fresh processor. *)
Definition pipeline : M state unit :=
  load_data ;;;
  stats <- process_data ;;
  save_results stats ;;;
  os (logger INFO "Data processing completed successfully" NoArg).

(** [main], given the parsed arguments; the value is the exit status and
    the environment it leaves. *)
Definition main (input output : string) : M world Z :=
  fun w =>
    let body :=
      try_except (pipeline ;;; ret 0)
        (fun e =>
           os (logger ERROR "Error in data processing: " (ArgExn e)) ;;;
           ret 1) in
    let (r, st) := body {| env := w; self := init input output |} in
    (r, env st).

End Pipeline.

End Tabular.

(* ===================================================================== *)
(** ** The vocabulary of the specification *)
(* ===================================================================== *)

(** The notions the properties are stated with, defined on their own and
    not through the code: means, nearest floats, records, missing cells,
    the summary of a column. *)
Module Spec.
Import Py Eff OS Pandas.

(** *** Line mode *)

(** The arithmetic mean of a list of numbers. *)
Definition arithmetic_mean (xs : list Q) : Q :=
  (fold_right Qplus 0 xs / inject_Z (Z.of_nat (List.length xs)))%Q.

Definition line_lengths (data : list text) : list Q :=
  List.map (fun line => inject_Z (len line)) data.

(** The values a [float] can take: a significand of 53 bits and a power
    of two. *)
Definition float53 (x : Q) : Prop :=
  exists m e : Z, Z.abs m <= 2 ^ 53 /\ (x == inject_Z m * 2 ^ e)%Q.

(** [x] is a float, and no float is nearer to [q]. *)
Definition nearest_float (q x : Q) : Prop :=
  float53 x /\
  forall y, float53 y -> (Qabs (q - x) <= Qabs (q - y))%Q.

(** A float whose significand of 53 bits is even. *)
Definition even_float (x : Q) : Prop :=
  exists m e : Z,
    2 ^ 52 <= Z.abs m < 2 ^ 53 /\ Z.even m = true /\
    (x == inject_Z m * 2 ^ e)%Q.

(** When another float is as near to [q] as [x] is, [x] is the even
    one. *)
Definition ties_to_even (q x : Q) : Prop :=
  forall y, float53 y -> ~ (y == x)%Q ->
            (Qabs (q - y) == Qabs (q - x))%Q -> even_float x.

(** [x] is [q] rounded to a float: to nearest, ties to even. *)
Definition rounds_to (q x : Q) : Prop :=
  nearest_float q x /\ ties_to_even q x.

(** A float in the range of the double format. *)
Definition binary64 (x : Q) : Prop :=
  exists m e : Z,
    Z.abs m < 2 ^ 53 /\ -1074 <= e <= 971 /\ (x == inject_Z m * 2 ^ e)%Q.

(** A line of the file without its line end. *)
Definition line_content (line : text) : text :=
  match rev line with
  | c :: r => if (c =? LF)%N then rev r else line
  | [] => line
  end.

(** The lines of a file that are empty before any trimming. *)
Definition raw_empty_lines (t : text) : Z :=
  len (List.filter (fun line => negb (truthy (line_content line)))
         (iter_lines t)).

(** A line that holds something other than white space. *)
Definition has_content (line : text) : bool :=
  existsb (fun c => negb (isspace c)) line.

(** *** Paths that name nothing *)

(** The error of the system on a path that names nothing: [ENOTDIR] when
    a leading piece of the path is a regular file, [ENOENT] otherwise. *)
Definition missing_error (f : gmap string node) (p : string) : exn :=
  if below_file f p then NotADirectoryError p else FileNotFoundError p.

(** *** Tabular mode: the Dataset *)

Inductive cell : Type :=
| CNull
| CInt (z : Z)
| CFloat (q : Q)
| CBool (b : bool)
| CStr (s : string).

Definition obj_cell (o : obj) : cell :=
  match o with
  | OStr s => CStr s
  | OBool b => CBool b
  end.

Definition opt_cell {A} (f : A -> cell) (o : option A) : cell :=
  match o with
  | Some a => f a
  | None => CNull
  end.

(** The cells of a column, top to bottom. *)
Definition cells (s : Series) : list cell :=
  match s with
  | Int64 v => List.map CInt v
  | Float64 v => List.map (opt_cell CFloat) v
  | Bool v => List.map CBool v
  | Object v => List.map (opt_cell obj_cell) v
  end.

(** A null or empty cell. *)
Definition missing (c : cell) : bool :=
  match c with
  | CNull => true
  | CStr s => String.eqb s ""
  | _ => false
  end.

(** The Dataset as a sequence of records: one per index position, each a
    mapping from column name to cell. *)
Definition record_at (df : DataFrame) (i : nat) : list (string * cell) :=
  List.map (fun c => (fst c, nth i (cells (snd c)) CNull)) (cols df).

Definition records (df : DataFrame) : list (list (string * cell)) :=
  List.map (record_at df) (seq 0 (nrows df)).

(** The distinct column names of a frame. *)
Definition column_set (df : DataFrame) : gset string :=
  list_to_set (columns df).

(** What every frame returned by [pd.read_csv] satisfies: at least one
    column, labels made unique, columns as long as the index, and no
    empty string (the parser reads an empty field as NaN). *)
Record loaded (df : DataFrame) : Prop :=
  { loaded_cols : cols df <> [];
    loaded_labels : NoDup (columns df);
    loaded_rect : Forall (fun c => series_len (snd c) = nrows df) (cols df);
    loaded_filled :
      Forall (fun c => Forall (fun x => x <> CStr "") (cells (snd c)))
        (cols df) }.

(** [sum(d.values())] *)
Definition dict_sum (m : gmap string Z) : Z :=
  map_fold (fun _ v acc => v + acc) 0 m.

Definition has_numeric (df : DataFrame) : bool :=
  existsb (fun c => is_numeric (snd c)) (cols df).

(** *** Tabular mode: the summary of a column *)






Definition categorical_names : gset string :=
  list_to_set ["count"; "unique"; "top"; "freq"]%string.





End Spec.

(* ===================================================================== *)
(** ** Concrete inputs *)
(* ===================================================================== *)

Module Scenario.
Import Py Eff OS Pandas.

Definition nl : string := String (ascii_of_nat 10) EmptyString.

Definition empty_world : world := {| fs := ∅; log := []; stdout := [] |}.

(** Line mode: a file holding ["hello\n\nworld  \n"]. *)
Definition scenario_bytes : string :=
  ("hello" ++ nl ++ nl ++ "world  " ++ nl)%string.

Definition scenario_world : world :=
  {| fs := {[ "input.txt"%string := File scenario_bytes ]};
     log := [];
     stdout := [] |}.

Definition scenario_processor : LineMode.DataProcessor :=
  {| LineMode.input_file := "input.txt" |}.

(** A directory that holds [input.txt]; the path ["input.txt/"], like
    every path below that file, names nothing. *)
Definition slash_world : world :=
  {| fs := {[ "."%string := Dir;
              "input.txt"%string := File scenario_bytes ]};
     log := [];
     stdout := [] |}.

(** Three lines of lengths 1, 1 and 2: their mean 4/3 is no float. *)
Definition thirds : list text := [lit "a"; lit "b"; lit "cc"].

(** A file with an empty line and a line of blanks between two words. *)
Definition blank_world : world :=
  {| fs := {[ "notes.txt"%string :=
               File ("  one " ++ nl ++ nl ++ "   " ++ nl ++ "two")%string ]};
     log := [];
     stdout := [] |}.

(** Tabular mode: the frame read from ["a,b\n1,2\n3,\n"]; the empty
    field makes [b] a float column with one NaN. *)
Definition csv_bytes : string :=
  ("a,b" ++ nl ++ "1,2" ++ nl ++ "3," ++ nl)%string.

Definition scenario_frame : DataFrame :=
  {| nrows := 2;
     cols := [("a"%string, Int64 [1; 3]);
              ("b"%string, Float64 [Some 2%Q; None])] |}.

(** A frame without any numeric column. *)
Definition names_frame : DataFrame :=
  {| nrows := 2;
     cols := [("name"%string,
               Object [Some (OStr "alice"); Some (OStr "bob")])] |}.

(** A processor that holds [df], and one that has loaded nothing. *)
Definition holding (df : DataFrame) : Tabular.state :=
  {| Tabular.env := empty_world;
     Tabular.self := {| Tabular.input_file := "data.csv";
                        Tabular.output_dir := "./output";
                        Tabular.data := Some df |} |}.

Definition fresh (w : world) (input output : string) : Tabular.state :=
  {| Tabular.env := w; Tabular.self := Tabular.init input output |}.

(** Stand-ins for the codecs of pandas, defined on the scenario only. *)
Definition csv_world : world :=
  {| fs := {[ "data.csv"%string := File csv_bytes ]};
     log := [];
     stdout := [] |}.

Definition scenario_parse (path : string) (bs : list N)
  : result DataFrame :=
  if bool_decide (bs = List.map byte_of (list_ascii_of_string csv_bytes))
  then Ok scenario_frame
  else Raise (PandasError "not the scenario").

Definition scenario_to_csv (df : DataFrame) : string := csv_bytes.

Definition scenario_to_json (stats : Tabular.Stats) : string := "{}".

(** The record [process_data] logs, and a state with one more record. *)
Definition completed : log_record :=
  LogRecord INFO "Data processing completed" NoArg.

Definition logged (r : log_record) (st : Tabular.state) : Tabular.state :=
  Tabular.set_env {| fs := fs (Tabular.env st);
                     log := log (Tabular.env st) ++ [r];
                     stdout := stdout (Tabular.env st) |} st.

End Scenario.

(* ===================================================================== *)
(** ** Further vocabulary: runs of the two scripts *)
(* ===================================================================== *)

Module Runs.
Import Py Eff OS Pandas Scenario.

(** The bytes of a file. *)
Definition file_bytes (c : string) : list N :=
  List.map byte_of (list_ascii_of_string c).

(** A path that names a file whose bytes are valid UTF-8. *)
Definition readable (w : world) (path : string) : bool :=
  match fs w !! path with
  | Some (File c) =>
      match utf8_decode (file_bytes c) with
      | Some _ => true
      | None => false
      end
  | _ => false
  end.

(** A text with every line end written [\r\n]. *)
Definition to_crlf (t : text) : text :=
  flat_map (fun c => if (c =? LF)%N then [CR; LF] else [c]) t.

Definition no_cr (t : text) : bool :=
  forallb (fun c => negb (c =? CR)%N) t.

Definition is_ascii (c : string) : bool :=
  forallb (fun b => (b <? 0x80)%N) (file_bytes c).

(** The environment with more records in the log, or more lines on
    standard output. *)
Definition with_log (rs : list log_record) (w : world) : world :=
  {| fs := fs w; log := log w ++ rs; stdout := stdout w |}.

Definition with_stdout (ls : list (string * option num)) (w : world)
  : world :=
  {| fs := fs w; log := log w; stdout := stdout w ++ ls |}.

(** What line mode prints for a report. *)
Definition printed (s : LineMode.Stats) : list (string * option num) :=
  (String (ascii_of_nat 10) "Analysis Results:", None)
  :: List.map (fun kv => ((LineMode.title (fst kv) ++ ": ")%string,
                          Some (snd kv)))
       (LineMode.items s).

(** The two files the tabular script writes into [out]. *)
Definition stats_path (out : string) : string :=
  path_join out "statistics.json".

Definition data_path (out : string) : string :=
  path_join out "processed_data.csv".

(** The report of a frame that has a column. *)
Definition report_of (df : DataFrame) : Tabular.Stats :=
  {| Tabular.row_count := df_len df;
     Tabular.column_count := len (columns df);
     Tabular.missing_values := isnull_sum_to_dict df;
     Tabular.numeric_stats :=
       summary_to_dict
         (List.map (fun c => (fst c, describe_1d (snd c)))
            (select_data df)) |}.

(** A processor in an environment. *)
Definition processor (w : world) (input output : string)
    (d : option DataFrame) : Tabular.state :=
  {| Tabular.env := w;
     Tabular.self := {| Tabular.input_file := input;
                        Tabular.output_dir := output;
                        Tabular.data := d |} |}.

(** The exception of [os.makedirs(out, exist_ok=True)], if any. *)
Definition refused (f : gmap string node) (out : string) : option exn :=
  match f !! out with
  | Some (File _) => Some (FileExistsError out)
  | Some Dir => None
  | None =>
      if String.eqb out "" then Some (FileNotFoundError out)
      else if below_file f out then Some (NotADirectoryError out)
      else None
  end.

(** The file system once [os.makedirs(out, exist_ok=True)] has
    returned. *)
Definition made (out : string) (f : gmap string node) : gmap string node :=
  match f !! out with
  | None => with_dirs out f
  | Some _ => f
  end.

(** A state with another file system and more records in the log. *)
Definition moved (f : gmap string node) (rs : list log_record)
    (st : Tabular.state) : Tabular.state :=
  Tabular.set_env {| fs := f;
                     log := log (Tabular.env st) ++ rs;
                     stdout := stdout (Tabular.env st) |} st.



(** The records the tabular script logs. *)
Definition loaded_from (input : string) : log_record :=
  LogRecord INFO "Successfully loaded data from " (ArgPath input).

Definition load_error (e : exn) : log_record :=
  LogRecord ERROR "Error loading data: " (ArgExn e).

Definition stats_saved (out : string) : log_record :=
  LogRecord INFO "Statistics saved to " (ArgPath (stats_path out)).

Definition data_saved (out : string) : log_record :=
  LogRecord INFO "Processed data saved to " (ArgPath (data_path out)).



(** A world with one file. *)
Definition one_file (path content : string) : world :=
  {| fs := {[ path := File content ]}; log := []; stdout := [] |}.

(** A world where the output directory is there already. *)
Definition out_world : world :=
  {| fs := {[ "data.csv"%string := File csv_bytes; "out"%string := Dir ]};
     log := [];
     stdout := [] |}.

(** The same two lines, ended the Unix way and the DOS way. *)
Definition cr : string := String (ascii_of_nat 13) EmptyString.

Definition lf : string := String (ascii_of_nat 10) EmptyString.

Definition two_files : world :=
  {| fs := {[ "unix.txt"%string := File ("one" ++ lf ++ " two" ++ lf)%string;
              "dos.txt"%string :=
                File ("one" ++ cr ++ lf ++ " two" ++ cr ++ lf)%string ]};
     log := [];
     stdout := [] |}.

End Runs.

(** Unfolding the methods down to the state they transform. *)
Ltac run :=
  unfold LineMode.main, LineMode.process, LineMode.read_data, LineMode.init,
    LineMode.analyze_data, LineMode.print_items,
    Tabular.main, Tabular.pipeline, Tabular.load_data, Tabular.process_data,
    Tabular.save_results, Tabular.read_csv, Tabular.os, Tabular.lift,
    Tabular.init,
    OS.read_text, OS.read_bytes, OS.exists_, OS.makedirs, OS.write_file,
    OS.logger, OS.print,
    Eff.zoom, Eff.try_except, Eff.bind, Eff.get, Eff.modify, Eff.ret,
    Eff.raise,
    Tabular.set_env, Tabular.set_data, OS.set_fs;
  cbn [Tabular.env Tabular.self OS.fs OS.log OS.stdout Tabular.data
       Tabular.input_file Tabular.output_dir LineMode.input_file fst snd].

(** Projections of a state that is given by its fields. *)
Ltac norm :=
  cbn [Tabular.env Tabular.self OS.fs OS.log OS.stdout Tabular.output_dir
       Tabular.data Tabular.input_file fst snd].

(* ===================================================================== *)
(** ** Rounding to a float *)
(* ===================================================================== *)

Module FloatFacts.
Import Py Spec.

Lemma pow2_pos (e : Z) : (0 < 2 ^ e)%Q.
Proof. apply Qpower_0_lt. reflexivity. Qed.

Lemma pow2_add (a b : Z) : (2 ^ (a + b) == 2 ^ a * 2 ^ b)%Q.
Proof. apply Qpower_plus. discriminate. Qed.

Lemma pow2_Z (e : Z) : 0 <= e -> (2 ^ e == inject_Z (2 ^ e))%Q.
Proof. intros H. rewrite Zpower_Qpower by exact H. reflexivity. Qed.

Lemma scale_value (m e : Z) : (scale m e == inject_Z m * 2 ^ e)%Q.
Proof.
  unfold scale. destruct (Z.leb_spec 0 e) as [H|H].
  - rewrite inject_Z_mult, pow2_Z by exact H. reflexivity.
  - rewrite Qred_correct.
    assert (Hp : 0 < 2 ^ (- e)) by (apply Z.pow_pos_nonneg; lia).
    replace e with (- (- e)) at 2 by lia.
    rewrite Qpower_opp, pow2_Z by lia.
    rewrite (Qmake_Qdiv m (Z.to_pos (2 ^ (- e)))).
    rewrite Z2Pos.id by exact Hp. reflexivity.
Qed.


Lemma inject_pos (d : Z) : 0 < d -> (0 < inject_Z d)%Q.
Proof. intros H. change (inject_Z 0 < inject_Z d)%Q. rewrite <- Zlt_Qlt. exact H. Qed.

Lemma inject_nonneg (d : Z) : 0 <= d -> (0 <= inject_Z d)%Q.
Proof. intros H. change (inject_Z 0 <= inject_Z d)%Q. rewrite <- Zle_Qle. exact H. Qed.

Lemma pos_nz (x : Q) : (0 < x)%Q -> ~ (x == 0)%Q.
Proof. intros H E. rewrite E in H. apply (Qlt_irrefl _ H). Qed.

Lemma scaled_pos (a b e : Z) :
  0 < a -> 0 < b -> 0 < num_scaled a e /\ 0 < den_scaled b e.
Proof.
  intros Ha Hb. unfold num_scaled, den_scaled.
  split; apply Z.mul_pos_pos; try assumption; apply Z.pow_pos_nonneg; lia.
Qed.

(** [a / b = (num / den) * 2 ^ e] *)
Lemma scaled_ratio (a b e : Z) :
  0 < b ->
  (inject_Z a / inject_Z b ==
   inject_Z (num_scaled a e) / inject_Z (den_scaled b e) * 2 ^ e)%Q.
Proof.
  intros Hb. unfold num_scaled, den_scaled.
  assert (HB : ~ (inject_Z b == 0)%Q) by (apply pos_nz, inject_pos, Hb).
  rewrite !inject_Z_mult.
  destruct (Z.leb_spec 0 e) as [H|H].
  - rewrite (Z.max_l 0 (- e)) by lia. rewrite (Z.max_r 0 e) by lia.
    rewrite <- (pow2_Z e H).
    change (inject_Z (2 ^ 0)) with 1%Q.
    pose proof (pow2_pos e) as Hp.
    field. split; [ apply pos_nz, Hp | exact HB ].
  - rewrite (Z.max_r 0 (- e)) by lia. rewrite (Z.max_l 0 e) by lia.
    rewrite <- (pow2_Z (- e)) by lia.
    change (inject_Z (2 ^ 0)) with 1%Q.
    pose proof (pow2_pos (- e)) as Hp.
    assert (E : (2 ^ e == / 2 ^ (- e))%Q).
    { rewrite <- Qpower_opp. rewrite Z.opp_involutive. reflexivity. }
    rewrite E. field. split; [ apply pos_nz, Hp | exact HB ].
Qed.

Lemma exponent_first (a b : Z) :
  0 < a -> 0 < b ->
  let e := Z.log2 a - Z.log2 b - 52 in
  2 ^ 51 * den_scaled b e < num_scaled a e < 2 ^ 53 * den_scaled b e.
Proof.
  intros Ha Hb e.
  destruct (Z.log2_spec a Ha) as [Ha1 Ha2].
  destruct (Z.log2_spec b Hb) as [Hb1 Hb2].
  pose proof (Z.log2_nonneg a) as Hla. pose proof (Z.log2_nonneg b) as Hlb.
  unfold num_scaled, den_scaled.
  destruct (Z.leb_spec 0 e) as [H|H].
  - rewrite (Z.max_l 0 (- e)) by lia. rewrite (Z.max_r 0 e) by lia.
    change (2 ^ 0) with 1. rewrite Z.mul_1_r.
    assert (E1 : 2 ^ Z.succ (Z.log2 a) = 2 ^ 53 * (2 ^ e * 2 ^ Z.log2 b)).
    { rewrite <- !Z.pow_add_r by lia. f_equal. unfold e. lia. }
    assert (E2 : 2 ^ Z.log2 a = 2 ^ 51 * (2 ^ e * 2 ^ Z.succ (Z.log2 b))).
    { rewrite <- !Z.pow_add_r by lia. f_equal. unfold e. lia. }
    assert (Hp : 0 < 2 ^ e) by (apply Z.pow_pos_nonneg; lia).
    split; nia.
  - rewrite (Z.max_r 0 (- e)) by lia. rewrite (Z.max_l 0 e) by lia.
    change (2 ^ 0) with 1. rewrite Z.mul_1_r.
    assert (E1 : 2 ^ Z.succ (Z.log2 a) * 2 ^ (- e) = 2 ^ 53 * 2 ^ Z.log2 b).
    { rewrite <- !Z.pow_add_r by lia. f_equal. unfold e. lia. }
    assert (E2 : 2 ^ Z.log2 a * 2 ^ (- e) = 2 ^ 51 * 2 ^ Z.succ (Z.log2 b)).
    { rewrite <- !Z.pow_add_r by lia. f_equal. unfold e. lia. }
    assert (Hp : 0 < 2 ^ (- e)) by (apply Z.pow_pos_nonneg; lia).
    split; nia.
Qed.

Lemma scaled_pred (a b e : Z) :
  (1 <= e -> num_scaled a (e - 1) = num_scaled a e
             /\ den_scaled b e = 2 * den_scaled b (e - 1)) /\
  (e <= 0 -> num_scaled a (e - 1) = 2 * num_scaled a e
             /\ den_scaled b (e - 1) = den_scaled b e).
Proof.
  unfold num_scaled, den_scaled. split; intros H.
  - rewrite !(Z.max_l 0 (- _)) by lia. rewrite !(Z.max_r 0) by lia.
    split; [reflexivity|].
    replace e with (1 + (e - 1)) at 1 by lia.
    rewrite Z.pow_add_r by lia. change (2 ^ 1) with 2. lia.
  - rewrite !(Z.max_r 0 (- _)) by lia. rewrite !(Z.max_l 0) by lia.
    split; [|reflexivity].
    replace (- (e - 1)) with (1 + - e) by lia.
    rewrite Z.pow_add_r by lia. change (2 ^ 1) with 2. lia.
Qed.

(** The scaled quotient has 53 bits: it lies in [[2^52, 2^53)]. *)
Lemma exponent_spec (a b : Z) :
  0 < a -> 0 < b ->
  let e := exponent a b in
  2 ^ 52 * den_scaled b e <= num_scaled a e < 2 ^ 53 * den_scaled b e.
Proof.
  intros Ha Hb. unfold exponent.
  pose proof (exponent_first a b Ha Hb) as H. cbv zeta in H.
  set (e0 := Z.log2 a - Z.log2 b - 52) in *.
  destruct (Z.ltb_spec (num_scaled a e0) (2 ^ 52 * den_scaled b e0)) as [L|L];
    cbv zeta; [|lia].
  destruct (scaled_pred a b e0) as [P1 P2].
  destruct (Z_le_gt_dec 1 e0) as [G|G].
  - destruct (P1 G) as [-> E]. lia.
  - destruct (P2 ltac:(lia)) as [-> ->]. lia.
Qed.

(** Rounding half to even gives an integer nearest to [n / d]. *)
Lemma round_half_even_floor (n d : Z) :
  0 < d ->
  let m := round_half_even n d in
  (m = n / d \/ m = n / d + 1) /\
  2 * Z.abs (n - m * d) <= d.
Proof.
  intros Hd. unfold round_half_even.
  pose proof (Z.div_mod n d ltac:(lia)) as E.
  pose proof (Z.mod_pos_bound n d Hd) as B.
  destruct (Z.compare_spec (2 * (n mod d)) d) as [C|C|C]; cbv zeta.
  - destruct (Z.even (n / d)); split; auto; nia.
  - split; auto; nia.
  - split; auto; nia.
Qed.

Lemma nearest_float_eq (q q' x : Q) :
  (q == q')%Q -> nearest_float q x -> nearest_float q' x.
Proof.
  intros E [F N]. split; [exact F|].
  intros y Hy. rewrite <- E. apply N, Hy.
Qed.

Lemma float53_opp (x : Q) : float53 x -> float53 (- x).
Proof.
  intros (m & e & Hm & E). exists (- m), e. split; [lia|].
  rewrite E, inject_Z_opp. ring.
Qed.

Lemma nearest_float_opp (q x : Q) :
  nearest_float q x -> nearest_float (- q) (- x).
Proof.
  intros [F N]. split; [apply float53_opp, F|].
  intros y Hy.
  assert (E1 : (- q - - x == - (q - x))%Q) by ring.
  assert (E2 : (- q - y == - (q - - y))%Q) by ring.
  rewrite E1, E2, !Qabs_opp. apply N, float53_opp, Hy.
Qed.

(** How [round_half_even] chooses between the two integers around
    [n / d]. *)
Lemma round_half_even_cases (n d : Z) :
  0 < d ->
  let f := n / d in
  let u := (inject_Z (n mod d) / inject_Z d)%Q in
  let m := round_half_even n d in
  (inject_Z n / inject_Z d == inject_Z f + u)%Q /\
  ((m = f /\ (0 <= u)%Q /\ (u < 1 # 2)%Q) \/
   (m = f + 1 /\ ((1 # 2) < u)%Q /\ (u < 1)%Q) \/
   ((m = f \/ m = f + 1) /\ (u == 1 # 2)%Q /\ Z.even m = true)).
Proof.
  intros Hd f u m.
  pose proof (Z.div_mod n d ltac:(lia)) as E.
  pose proof (Z.mod_pos_bound n d Hd) as B.
  assert (HD : (0 < inject_Z d)%Q) by (apply inject_pos, Hd).
  split.
  { assert (En : (inject_Z n == inject_Z d * inject_Z f + inject_Z (n mod d))%Q).
    { unfold f. rewrite <- inject_Z_mult, <- inject_Z_plus, <- E.
      reflexivity. }
    unfold u. rewrite En. apply pos_nz in HD. revert HD.
    generalize (inject_Z f), (inject_Z (n mod d)), (inject_Z d).
    intros F R D HD. field. exact HD. }
  assert (H2 : (inject_Z (2 * (n mod d)) == 2 * inject_Z (n mod d))%Q)
    by (rewrite inject_Z_mult; reflexivity).
  unfold m, round_half_even. fold f.
  destruct (Z.compare_spec (2 * (n mod d)) d) as [C|C|C].
  - right. right. split; [destruct (Z.even f); auto|]. split.
    + assert (Ed : (inject_Z d == 2 * inject_Z (n mod d))%Q)
        by (rewrite <- H2, C; reflexivity).
      unfold u. rewrite Ed in HD |- *. revert HD.
      generalize (inject_Z (n mod d)). intros R HR. field. lra.
    + destruct (Z.even f) eqn:Ev; [exact Ev|].
      change (f + 1) with (Z.succ f). rewrite Z.even_succ, <- Z.negb_even, Ev.
      reflexivity.
  - left. split; [reflexivity|]. split.
    + unfold u. apply Qle_shift_div_l; [exact HD|]. rewrite Qmult_0_l.
      apply inject_nonneg. lia.
    + unfold u. apply Qlt_shift_div_r; [exact HD|].
      assert (L : (inject_Z (2 * (n mod d)) < inject_Z d)%Q)
        by (rewrite <- Zlt_Qlt; exact C).
      rewrite H2 in L. lra.
  - right. left. split; [reflexivity|]. split.
    + unfold u. apply Qlt_shift_div_l; [exact HD|].
      assert (L : (inject_Z d < inject_Z (2 * (n mod d)))%Q)
        by (rewrite <- Zlt_Qlt; exact C).
      rewrite H2 in L. lra.
    + unfold u. apply Qlt_shift_div_r; [exact HD|]. rewrite Qmult_1_l.
      rewrite <- Zlt_Qlt. lia.
Qed.

(** No float lies strictly between two neighbours of the grid of step
    [2^e] on which [a / b] has 53 bits. *)
Lemma float_on_grid (a b : Z) (y : Q) :
  0 < a -> 0 < b -> float53 y ->
  let e := exponent a b in
  let f := num_scaled a e / den_scaled b e in
  exists t, (y == t * 2 ^ e)%Q /\
            ((t <= inject_Z f)%Q \/ (inject_Z f + 1 <= t)%Q).
Proof.
  intros Ha Hb (m' & e' & Hm' & Ey) e f.
  pose proof (exponent_spec a b Ha Hb) as Hs. cbv zeta in Hs. fold e in Hs.
  destruct (scaled_pos a b e Ha Hb) as [Hn Hd].
  assert (Hf1 : 2 ^ 52 <= f) by (apply Z.div_le_lower_bound; lia).
  exists (inject_Z m' * 2 ^ (e' - e))%Q. split.
  { rewrite Ey, <- Qmult_assoc, <- pow2_add.
    replace (e' - e + e) with e' by lia. reflexivity. }
  destruct (Z_le_gt_dec e e') as [G|G].
  - assert (Ez : (inject_Z m' * 2 ^ (e' - e)
                  == inject_Z (m' * 2 ^ (e' - e)))%Q).
    { rewrite inject_Z_mult, <- pow2_Z by lia. reflexivity. }
    rewrite Ez.
    destruct (Z_le_gt_dec (m' * 2 ^ (e' - e)) f) as [L|L].
    + left. rewrite <- Zle_Qle. exact L.
    + right. change 1%Q with (inject_Z 1).
      rewrite <- inject_Z_plus, <- Zle_Qle. lia.
  - left.
    apply Qle_trans with (inject_Z (2 ^ 52)); [|rewrite <- Zle_Qle; exact Hf1].
    assert (Hh : (2 ^ (e' - e) <= 1 # 2)%Q).
    { change (1 # 2)%Q with (2 ^ (-1))%Q.
      apply Qpower_le_compat_l; [lia|discriminate]. }
    pose proof (pow2_pos (e' - e)) as Hp'.
    assert (Hb' : (inject_Z m' <= inject_Z (2 ^ 53))%Q)
      by (rewrite <- Zle_Qle; lia).
    apply Qle_trans with (inject_Z (2 ^ 53) * 2 ^ (e' - e))%Q.
    + apply Qmult_le_compat_r; [exact Hb'|apply Qlt_le_weak, Hp'].
    + assert (Eh : (inject_Z (2 ^ 53) * (1 # 2) == inject_Z (2 ^ 52))%Q)
        by reflexivity.
      rewrite <- Eh. apply Qmult_le_l; [reflexivity|exact Hh].
Qed.

Lemma Qabs_scale (x p : Q) : (0 < p)%Q -> (Qabs (x * p) == Qabs x * p)%Q.
Proof.
  intros Hp. rewrite Qabs_Qmult, (Qabs_pos p) by (apply Qlt_le_weak, Hp).
  reflexivity.
Qed.

Lemma Qabs_spec (x : Q) :
  ((0 <= x)%Q /\ (Qabs x == x)%Q) \/ ((x <= 0)%Q /\ (Qabs x == - x)%Q).
Proof.
  destruct (Qlt_le_dec x 0) as [L|L].
  - right. split; [lra|]. apply Qabs_neg. lra.
  - left. split; [exact L|]. now apply Qabs_pos.
Qed.

Lemma even_float_opp (x : Q) : even_float x -> even_float (- x).
Proof.
  intros (m & e & Hm & Ev & E). exists (- m), e.
  split; [lia|]. split; [now rewrite Z.even_opp|].
  rewrite E, inject_Z_opp. ring.
Qed.

(** [round_pos a b] is a float nearest to [a / b], the even one of two
    that are equally near. *)
Lemma round_pos_rounds (a b : Z) :
  0 < a -> 0 < b ->
  nearest_float (inject_Z a / inject_Z b) (round_pos a b) /\
  ties_to_even (inject_Z a / inject_Z b) (round_pos a b).
Proof.
  intros Ha Hb.
  pose proof (exponent_spec a b Ha Hb) as Hs. cbv zeta in Hs.
  pose proof (fun y Hy => float_on_grid a b y Ha Hb Hy) as Hgrid.
  cbv zeta in Hgrid. unfold round_pos.
  set (e := exponent a b) in *.
  destruct (scaled_pos a b e Ha Hb) as [Hn Hd].
  pose proof (scaled_ratio a b e Hb) as Hq.
  set (n := num_scaled a e) in *. set (d := den_scaled b e) in *.
  destruct (round_half_even_cases n d Hd) as [Hsu Hcases].
  cbv zeta in Hsu, Hcases.
  assert (Hf1 : 2 ^ 52 <= n / d) by (apply Z.div_le_lower_bound; lia).
  assert (Hf2 : n / d < 2 ^ 53) by (apply Z.div_lt_upper_bound; lia).
  pose proof (pow2_pos e) as HP.
  set (m := round_half_even n d) in *.
  set (f := n / d) in *.
  set (u := (inject_Z (n mod d) / inject_Z d)%Q) in *.
  set (s := (inject_Z n / inject_Z d)%Q) in *.
  assert (Hm : m = f \/ m = f + 1)
    by (destruct Hcases as [[? _]|[[? _]|[? _]]]; auto).
  assert (Edist : forall t,
             (Qabs (s * 2 ^ e - t * 2 ^ e) == Qabs (s - t) * 2 ^ e)%Q).
  { intros t. rewrite <- Qabs_scale by exact HP.
    apply Qabs_wd. ring. }
  assert (Hf1' : (inject_Z (f + 1) == inject_Z f + 1)%Q)
    by (rewrite inject_Z_plus; reflexivity).
  assert (Hfloat : float53 (scale m e))
    by (exists m, e; split; [lia|apply scale_value]).
  split; [split; [exact Hfloat|]|].
  - intros y Hy. destruct (Hgrid y Hy) as (t & Et & Ht).
    rewrite scale_value, Hq, Et, !Edist.
    apply Qmult_le_compat_r; [|apply Qlt_le_weak, HP].
    destruct (Qabs_spec (s - t)) as [[S1 ->]|[S1 ->]];
      destruct (Qabs_spec (s - inject_Z m)) as [[S2 ->]|[S2 ->]];
      destruct Hcases as [(E & U0 & U)|[(E & U & U1)|([E|E] & U & _)]];
      rewrite E in *; rewrite ?Hf1' in *;
      destruct Ht as [Ht|Ht]; lra.
  - intros y Hy Hne Htie. destruct (Hgrid y Hy) as (t & Et & Ht).
    rewrite scale_value, Hq, Et, !Edist in Htie.
    apply Qmult_inj_r in Htie; [|apply pos_nz, HP].
    assert (Hne' : ~ (t == inject_Z m)%Q).
    { intros Etm. apply Hne. rewrite scale_value, Et, Etm. reflexivity. }
    destruct Hcases as [(E & U0 & U)|[(E & U & U1)|(_ & _ & Ev)]].
    + exfalso. apply Hne'. rewrite E in *.
      destruct (Qabs_spec (s - t)) as [[S1 A1]|[S1 A1]];
        destruct (Qabs_spec (s - inject_Z f)) as [[S2 A2]|[S2 A2]];
        rewrite A1, A2 in Htie; destruct Ht as [Ht|Ht]; lra.
    + exfalso. apply Hne'. rewrite E in *. rewrite Hf1' in *.
      destruct (Qabs_spec (s - t)) as [[S1 A1]|[S1 A1]];
        destruct (Qabs_spec (s - (inject_Z f + 1))) as [[S2 A2]|[S2 A2]];
        rewrite A1, A2 in Htie; destruct Ht as [Ht|Ht]; lra.
    + destruct (Z.eq_dec m (2 ^ 53)) as [E|E].
      * exists (2 ^ 52), (e + 1). split; [lia|]. split; [reflexivity|].
        rewrite scale_value, E, pow2_add.
        change (2 ^ 1)%Q with 2%Q.
        change (inject_Z (2 ^ 53)) with (inject_Z (2 ^ 52 * 2)).
        rewrite inject_Z_mult. change (inject_Z 2) with 2%Q. ring.
      * exists m, e. split; [lia|]. split; [exact Ev|apply scale_value].
Qed.

Lemma ties_to_even_eq (q q' x : Q) :
  (q == q')%Q -> ties_to_even q x -> ties_to_even q' x.
Proof.
  intros E T y Hy Hne Htie. apply (T y Hy Hne). now rewrite E.
Qed.

Lemma ties_to_even_opp (q x : Q) :
  ties_to_even q x -> ties_to_even (- q) (- x).
Proof.
  intros T y Hy Hne Htie.
  apply even_float_opp, (T (- y)%Q).
  - now apply float53_opp.
  - intros E. apply Hne. rewrite <- E. ring.
  - assert (E1 : (q - - y == - (- q - y))%Q) by ring.
    assert (E2 : (q - x == - (- q - - x))%Q) by ring.
    now rewrite E1, E2, !Qabs_opp.
Qed.

(** [to_float q] is a float nearest to [q], the even one of two that
    are equally near. *)
Lemma to_float_rounds (q : Q) : rounds_to q (to_float q).
Proof.
  unfold rounds_to.
  destruct q as [n d]. unfold to_float. cbn [Qnum Qden].
  assert (E0 : forall a, (a # d == inject_Z a / inject_Z (Z.pos d))%Q)
    by (intros a; apply Qmake_Qdiv).
  destruct n as [|a|a].
  - split.
    + split; [exists 0, 0; split; [lia|reflexivity]|].
      intros y _. assert (E : ((0 # d) - 0 == 0)%Q) by reflexivity.
      rewrite E. apply Qabs_nonneg.
    + intros y _ Hne Htie. exfalso. apply Hne.
      assert (E : ((0 # d) - 0 == 0)%Q) by reflexivity.
      assert (E' : ((0 # d) - y == - y)%Q) by (rewrite (E0 0); field; discriminate).
      rewrite E, E', Qabs_opp in Htie. change (Qabs 0) with 0%Q in Htie.
      destruct (Qabs_spec y) as [[S A]|[S A]]; rewrite A in Htie; lra.
  - destruct (round_pos_rounds (Z.pos a) (Z.pos d)) as [N T]; try lia.
    split.
    + eapply nearest_float_eq; [symmetry; apply E0|exact N].
    + eapply ties_to_even_eq; [symmetry; apply E0|exact T].
  - destruct (round_pos_rounds (Z.pos a) (Z.pos d)) as [N T]; try lia.
    assert (E : (- (inject_Z (Z.pos a) / inject_Z (Z.pos d)) == Z.neg a # d)%Q).
    { rewrite <- (E0 (Z.pos a)). reflexivity. }
    split.
    + eapply nearest_float_eq; [exact E|]. now apply nearest_float_opp.
    + eapply ties_to_even_eq; [exact E|]. now apply ties_to_even_opp.
Qed.

Lemma to_float_nearest (q : Q) : nearest_float q (to_float q).
Proof. apply to_float_rounds. Qed.

Lemma rounds_to_eq (q q' x : Q) :
  (q == q')%Q -> rounds_to q x -> rounds_to q' x.
Proof.
  intros E [N T]. split;
    [eapply nearest_float_eq | eapply ties_to_even_eq]; eassumption.
Qed.

(** A float is its own nearest float. *)
Lemma nearest_float_exact (q x : Q) :
  float53 q -> nearest_float q x -> (x == q)%Q.
Proof.
  intros Fq [_ N]. specialize (N q Fq).
  assert (E : (q - q == 0)%Q) by ring. rewrite E in N.
  change (Qabs 0) with 0%Q in N.
  apply Qabs_Qle_condition in N. lra.
Qed.

(** Rounding does not cross a float. *)
Lemma nearest_float_ge (c q x : Q) :
  float53 c -> (c <= q)%Q -> nearest_float q x -> (c <= x)%Q.
Proof.
  intros Fc Hc [_ N]. specialize (N c Fc).
  rewrite (Qabs_pos (q - c)) in N by lra.
  apply Qabs_Qle_condition in N. lra.
Qed.

Lemma nearest_float_le (c q x : Q) :
  float53 c -> (q <= c)%Q -> nearest_float q x -> (x <= c)%Q.
Proof.
  intros Fc Hc [_ N]. specialize (N c Fc).
  rewrite (Qabs_neg (q - c)) in N by lra.
  apply Qabs_Qle_condition in N. lra.
Qed.

Lemma float53_Z (z : Z) : Z.abs z <= 2 ^ 53 -> float53 (inject_Z z).
Proof. intros H. exists z, 0. split; [exact H|]. change (2 ^ 0)%Q with 1%Q. ring. Qed.

Lemma exponent_range (a b : Z) :
  0 < a -> 0 < b ->
  Z.log2 a - Z.log2 b - 53 <= exponent a b <= Z.log2 a - Z.log2 b - 52.
Proof.
  intros Ha Hb. unfold exponent.
  destruct (_ <? _); lia.
Qed.

(** Within the exponent range of the format the rounded quotient is a
    double. *)
Lemma round_pos_binary64 (a b : Z) :
  0 < a < 2 ^ 1000 -> 0 < b < 2 ^ 1000 -> binary64 (round_pos a b).
Proof.
  intros [Ha Ha'] [Hb Hb']. unfold round_pos.
  pose proof (exponent_spec a b Ha Hb) as Hs. cbv zeta in Hs.
  pose proof (exponent_range a b Ha Hb) as He.
  assert (La : 0 <= Z.log2 a < 1000).
  { split; [apply Z.log2_nonneg|]. apply Z.log2_lt_pow2; lia. }
  assert (Lb : 0 <= Z.log2 b < 1000).
  { split; [apply Z.log2_nonneg|]. apply Z.log2_lt_pow2; lia. }
  set (e := exponent a b) in *.
  destruct (scaled_pos a b e Ha Hb) as [Hn Hd].
  set (n := num_scaled a e) in *. set (d := den_scaled b e) in *.
  destruct (round_half_even_floor n d Hd) as [Hm _]. cbv zeta in Hm.
  assert (Hf1 : 2 ^ 52 <= n / d) by (apply Z.div_le_lower_bound; lia).
  assert (Hf2 : n / d < 2 ^ 53) by (apply Z.div_lt_upper_bound; lia).
  set (m := round_half_even n d) in *.
  destruct (Z.eq_dec m (2 ^ 53)) as [E|E].
  - exists (2 ^ 52), (e + 1). split; [lia|]. split; [lia|].
    rewrite scale_value, E, pow2_add.
    change (2 ^ 1)%Q with 2%Q.
    change (inject_Z (2 ^ 53)) with (inject_Z (2 ^ 52 * 2)).
    rewrite inject_Z_mult. change (inject_Z 2) with 2%Q. ring.
  - exists m, e. split; [lia|]. split; [lia|]. apply scale_value.
Qed.

Lemma to_float_binary64 (a : Z) (p : positive) :
  0 <= a < 2 ^ 1000 -> Z.pos p < 2 ^ 1000 -> binary64 (to_float (a # p)).
Proof.
  intros Ha Hp. unfold to_float. cbn [Qnum Qden].
  destruct a as [|a|a]; try lia.
  - exists 0, 0. split; [lia|]. split; [lia|]. reflexivity.
  - apply round_pos_binary64; lia.
Qed.

End FloatFacts.

(* ===================================================================== *)
(** ** Properties of the builtins *)
(* ===================================================================== *)

Module PyFacts.
Import Py Spec FloatFacts.

(** *** The builtins on small inputs *)

Example strip_inner_blank :
  strip (lit "  a b  ") = lit "a b".
Proof. reflexivity. Qed.

Example strip_blank : strip [0x20; 0x09; 0xA0; 0x3000; LF]%N = [].
Proof. reflexivity. Qed.

(** U+00E9 and U+20AC from their two and three bytes. *)
Example utf8_decode_multibyte :
  utf8_decode [0xC3; 0xA9; 0x20; 0xE2; 0x82; 0xAC]%N
  = Some [0xE9; 0x20; 0x20AC]%N.
Proof. reflexivity. Qed.

(** An overlong form and a lone continuation byte are refused. *)
Example utf8_decode_refuses :
  utf8_decode [0xC0; 0x80]%N = None /\ utf8_decode [0x80]%N = None.
Proof. split; reflexivity. Qed.

Example iter_lines_mixed_ends :
  iter_lines [0x61; CR; LF; 0x62; CR; 0x63]%N
  = [[0x61; LF]; [0x62; LF]; [0x63]]%N.
Proof. reflexivity. Qed.

Example truediv_ten_two : truediv 10 2 = Some (PyFloat 5).
Proof. vm_compute. reflexivity. Qed.

Example truediv_ten_three :
  truediv 10 3 = Some (PyFloat (7505999378950827 # 2251799813685248)).
Proof. vm_compute. reflexivity. Qed.

(** [2^53 + 1] lies half way between two doubles; the even one is
    taken. *)
Example to_float_tie :
  to_float (inject_Z (2 ^ 53 + 1)) = inject_Z (2 ^ 53) /\
  to_float (inject_Z (2 ^ 53 + 3)) = inject_Z (2 ^ 53 + 4).
Proof. split; vm_compute; reflexivity. Qed.

Example to_float_tenth :
  to_float (1 # 10) = (3602879701896397 # 36028797018963968)%Q.
Proof. vm_compute. reflexivity. Qed.

Example truediv_by_zero : truediv 10 0 = None.
Proof. reflexivity. Qed.

(** *** Stripping *)

Section Dropwhile.
Context {A : Type} (p : A -> bool).

Lemma dropwhile_head (l : list A) :
  match dropwhile p l with
  | [] => True
  | x :: _ => p x = false
  end.
Proof.
  induction l as [|x l IH]; simpl; [exact I|].
  destruct (p x) eqn:E; [exact IH | exact E].
Qed.

Lemma dropwhile_fixed (x : A) (l : list A) :
  p x = false -> dropwhile p (x :: l) = x :: l.
Proof. intros E. simpl. now rewrite E. Qed.

Lemma dropwhile_idem (l : list A) :
  dropwhile p (dropwhile p l) = dropwhile p l.
Proof.
  pose proof (dropwhile_head l) as H.
  destruct (dropwhile p l) as [|x l']; [reflexivity|].
  now apply dropwhile_fixed.
Qed.

Lemma dropwhile_snoc (l : list A) (c : A) :
  p c = false -> dropwhile p (l ++ [c]) = dropwhile p l ++ [c].
Proof.
  intros E. induction l as [|x l IH]; simpl.
  - now rewrite E.
  - destruct (p x); [exact IH | reflexivity].
Qed.

Lemma dropwhile_nil (l : list A) :
  dropwhile p l = [] <-> forallb p l = true.
Proof.
  induction l as [|x l IH]; simpl; [tauto|].
  destruct (p x); simpl; [exact IH|].
  split; discriminate.
Qed.

End Dropwhile.

Lemma forallb_rev {A} (p : A -> bool) (l : list A) :
  forallb p (rev l) = forallb p l.
Proof.
  induction l as [|x l IH]; simpl; [reflexivity|].
  rewrite forallb_app, IH. simpl.
  rewrite andb_true_r. apply andb_comm.
Qed.

(** What is left of a string that starts with a non-space character. *)
Lemma rstrip_cons (c : N) (t : text) :
  isspace c = false ->
  rstrip (c :: t) = c :: rstrip t.
Proof.
  intros E. unfold rstrip. simpl.
  rewrite (dropwhile_snoc isspace _ c E).
  now rewrite rev_app_distr.
Qed.

Lemma rstrip_idem (t : text) : rstrip (rstrip t) = rstrip t.
Proof.
  unfold rstrip. rewrite rev_involutive.
  now rewrite dropwhile_idem.
Qed.

Lemma strip_idem (t : text) : strip (strip t) = strip t.
Proof.
  unfold strip, lstrip.
  pose proof (dropwhile_head isspace t) as H.
  destruct (dropwhile isspace t) as [|c u]; [reflexivity|].
  rewrite (rstrip_cons c u H).
  rewrite (dropwhile_fixed isspace c _ H).
  rewrite (rstrip_cons c _ H).
  now rewrite rstrip_idem.
Qed.

(** [strip] leaves nothing exactly when every character is white space. *)
Lemma strip_nil (t : text) :
  strip t = [] <-> forallb isspace t = true.
Proof.
  unfold strip, lstrip.
  pose proof (dropwhile_head isspace t) as H.
  rewrite <- (dropwhile_nil isspace t).
  destruct (dropwhile isspace t) as [|c u]; [tauto|].
  rewrite (rstrip_cons c u H). split; discriminate.
Qed.

Lemma truthy_strip (t : text) :
  truthy (strip t) = existsb (fun c => negb (isspace c)) t.
Proof.
  destruct (existsb (fun c => negb (isspace c)) t) eqn:E.
  - destruct (strip t) eqn:S; [|reflexivity].
    apply strip_nil in S.
    apply existsb_exists in E as (c & Hin & Hc).
    rewrite forallb_forall in S. specialize (S c Hin).
    rewrite S in Hc. discriminate.
  - assert (S : forallb isspace t = true).
    { apply forallb_forall. intros c Hin.
      destruct (isspace c) eqn:Ec; [reflexivity|].
      assert (existsb (fun c => negb (isspace c)) t = true) as E'.
      { apply existsb_exists. exists c. split; [exact Hin|].
        now rewrite Ec. }
      rewrite E in E'. discriminate. }
    apply strip_nil in S. now rewrite S.
Qed.

Lemma sum_from (l : list Z) (a : Z) :
  fold_left Z.add l a = a + Py.sum l.
Proof.
  unfold Py.sum. revert a.
  induction l as [|x l IH]; intros a; simpl; [lia|].
  rewrite (IH (a + x)), (IH (0 + x)). lia.
Qed.

Lemma sum_cons (x : Z) (l : list Z) : Py.sum (x :: l) = x + Py.sum l.
Proof. unfold Py.sum at 1. simpl. apply sum_from. Qed.

Lemma sum_ones {A} (l : list A) :
  Py.sum (List.map (fun _ => 1) l) = len l.
Proof.
  unfold len. induction l as [|x l IH]; [reflexivity|].
  cbn [List.map List.length]. rewrite sum_cons, IH. lia.
Qed.

(** True division by a positive int never raises and gives the quotient
    rounded to a float, which is a double when the operands are within
    the exponent range. *)
Lemma truediv_pos (a b : Z) :
  0 < b ->
  exists q, truediv a b = Some (PyFloat q) /\
            rounds_to (inject_Z a / inject_Z b) q /\
            (0 <= a < 2 ^ 1000 -> b < 2 ^ 1000 -> binary64 q).
Proof.
  intros Hb. destruct b as [|p|p]; try lia.
  exists (to_float (a # p)). split; [reflexivity|]. split.
  - apply rounds_to_eq with (a # p)%Q; [apply Qmake_Qdiv|].
    apply to_float_rounds.
  - apply to_float_binary64.
Qed.

End PyFacts.

(* ===================================================================== *)
(** ** Line mode: the Loader and the Analyzer *)
(* ===================================================================== *)

Module LineSpec.
Import Py Eff OS LineMode Spec Scenario FloatFacts PyFacts.
Local Open Scope eff_scope.

(** *** The Analyzer *)

Lemma sum_inject (zs : list Z) :
  (inject_Z (Py.sum zs) == fold_right Qplus 0 (List.map inject_Z zs))%Q.
Proof.
  induction zs as [|z zs IH]; [reflexivity|].
  rewrite sum_cons, inject_Z_plus. cbn [List.map fold_right].
  now rewrite IH.
Qed.

Lemma total_length_mean (data : list text) :
  (inject_Z (total_length data) / inject_Z (len data)
   == arithmetic_mean (line_lengths data))%Q.
Proof.
  unfold arithmetic_mean, line_lengths, total_length, len.
  rewrite sum_inject, List.map_map, List.length_map. reflexivity.
Qed.

Lemma count_empty_occ (data : list text) :
  count_empty data
  = Z.of_nat (count_occ (List.list_eq_dec N.eq_dec) data []).
Proof.
  unfold count_empty. rewrite sum_ones. unfold len. f_equal.
  induction data as [|line data IH]; [reflexivity|].
  cbn [List.filter count_occ].
  destruct line as [|c line]; cbn [truthy negb].
  - destruct (List.list_eq_dec N.eq_dec [] []) as [_|n]; [|congruence].
    cbn [List.length]. now rewrite IH.
  - destruct (List.list_eq_dec N.eq_dec (c :: line) []) as [e|_];
      [discriminate | exact IH].
Qed.

(** The lengths of strings of fewer than [2^63] characters sum to less
    than [2^63] times their number. *)
Lemma total_length_bound (data : list text) :
  List.Forall (fun s => len s < 2 ^ 63) data ->
  0 <= total_length data <= len data * 2 ^ 63.
Proof.
  unfold total_length.
  induction 1 as [|s data Hs _ IH]; [split; vm_compute; discriminate|].
  cbn [List.map]. rewrite sum_cons.
  set (K := 2 ^ 63) in *.
  unfold len in *. cbn [List.length]. nia.
Qed.

(** [analyze_data] always returns, and returns this. *)
Lemma analyze_data_returns (self : DataProcessor) (data : list text)
    (w : world) :
  exists avg,
    analyze_data self data w
    = (Ok {| total_lines := len data;
             empty_lines := count_empty data;
             avg_length := avg |}, w) /\
    match data with
    | [] => avg = PyInt 0
    | _ => exists q, avg = PyFloat q /\
                     rounds_to (arithmetic_mean (line_lengths data)) q /\
                     (List.Forall (fun s => len s < 2 ^ 63) data ->
                      len data < 2 ^ 63 -> binary64 q)
    end.
Proof.
  unfold analyze_data, bind, ret, raise.
  destruct data as [|line data]; cbn [truthy].
  - eexists. split; reflexivity.
  - destruct (truediv_pos (total_length (line :: data)) (len (line :: data)))
      as (q & Hq & Hmean & Hdouble).
    { unfold len. cbn [List.length]. lia. }
    rewrite Hq. eexists. split; [reflexivity|].
    exists q. split; [reflexivity|]. split.
    + eapply rounds_to_eq; [apply total_length_mean | exact Hmean].
    + intros Hs Hn. pose proof (total_length_bound _ Hs) as Hb.
      apply Hdouble; [|lia]. split; [lia|].
      assert (len (line :: data) * 2 ^ 63 < 2 ^ 63 * 2 ^ 63) by lia.
      assert (2 ^ 63 * 2 ^ 63 < 2 ^ 1000) by (vm_compute; reflexivity).
      lia.
Qed.

(** *** The Loader *)

Lemma stripped_lines_spec (f : list text) :
  stripped_lines f = List.map strip (List.filter has_content f).
Proof.
  unfold stripped_lines. f_equal.
  apply List.filter_ext. intros line. apply truthy_strip.
Qed.

Lemma stripped_lines_trimmed (f : list text) :
  List.Forall (fun s => s <> [] /\ strip s = s) (stripped_lines f).
Proof.
  unfold stripped_lines. apply List.Forall_forall. intros s Hin.
  apply List.in_map_iff in Hin as (line & <- & Hin).
  apply List.filter_In in Hin as [_ Ht].
  split; [|apply strip_idem].
  intros E. rewrite E in Ht. discriminate.
Qed.

Lemma count_empty_trimmed (data : list text) :
  List.Forall (fun s => s <> []) data -> count_empty data = 0.
Proof.
  intros H. unfold count_empty.
  induction H as [|line data Hline _ IH]; [reflexivity|].
  cbn [List.filter]. destruct line; [congruence|]. exact IH.
Qed.

(** A successful [read_data] read a file that decodes, and returns its
    stripped lines; it leaves the file system as it was. *)
Lemma read_data_returns (self : DataProcessor) (w w' : world)
    (data : list text) :
  read_data self w = (Ok data, w') ->
  w' = w /\
  exists c t,
    fs w !! input_file self = Some (File c) /\
    utf8_decode (List.map byte_of (list_ascii_of_string c)) = Some t /\
    data = stripped_lines (iter_lines t).
Proof.
  unfold read_data, try_except, read_text, read_bytes, bind, get, ret, raise,
    logger, modify.
  destruct (fs w !! input_file self) as [[|c]|] eqn:Hf; try discriminate;
    [|destruct (below_file _ _); discriminate].
  destruct (utf8_decode _) as [t|] eqn:Hd; try discriminate.
  intros [= <- <-]. split; [reflexivity|].
  exists c, t. auto.
Qed.

(** *** The claims on line mode *)

(** C1: on the file ["hello\n\nworld  \n"], one line of which is empty
    before trimming, the Loader returns [["hello", "world"]] and the run
    reports [total_lines = 2] and [avg_length = 5.0], but
    [empty_lines = 0] and not 1: the empty line is dropped before
    [analyze_data] counts. *)
Theorem C1_empty_lines_scenario :
  raw_empty_lines (lit scenario_bytes) = 1 /\
  fst (read_data scenario_processor scenario_world)
  = Ok [lit "hello"; lit "world"] /\
  fst (process scenario_processor scenario_world)
  = Ok {| total_lines := 2; empty_lines := 0; avg_length := PyFloat 5 |}.
Proof. repeat split; vm_compute; reflexivity. Qed.

(** C2, as the specification states it, fails on the Dataset
    [["a", "b", "cc"]]: the mean of the lengths is 4/3, and [avg_length]
    is the float next to it. *)
Lemma C2_avg_length_counterexample :
  ~ (forall (self : DataProcessor) (data : list text) (w : world),
        exists st,
          analyze_data self data w = (Ok st, w) /\
          match data with
          | [] => avg_length st = PyInt 0
          | _ => exists q, avg_length st = PyFloat q /\
                           (q == arithmetic_mean (line_lengths data))%Q
          end).
Proof.
  intros H.
  destruct (H scenario_processor thirds empty_world) as (st & Hrun & Havg).
  assert (E : analyze_data scenario_processor thirds empty_world
              = (Ok {| total_lines := 3; empty_lines := 0;
                       avg_length :=
                         PyFloat (6004799503160661 # 4503599627370496) |},
                 empty_world)) by (vm_compute; reflexivity).
  rewrite E in Hrun. injection Hrun as <-.
  cbn [thirds avg_length] in Havg.
  destruct Havg as (q & [= <-] & Hq).
  vm_compute in Hq. discriminate Hq.
Qed.

(** C2 (amended): on the empty Dataset the Analyzer returns
    [avg_length = 0] and does not raise [ZeroDivisionError]; on a
    non-empty Dataset it returns the arithmetic mean of the lengths of
    its lines rounded to a float (no float is nearer, and of two equally
    near the even one is taken): the mean itself whenever the mean is a
    float, and a double whenever the strings and the Dataset have fewer
    than [2^63] items, as every [str] and list has. *)
Theorem C2_avg_length_amended :
  forall (self : DataProcessor) (data : list text) (w : world),
    exists st,
      analyze_data self data w = (Ok st, w) /\
      match data with
      | [] => avg_length st = PyInt 0
      | _ =>
          exists q,
            avg_length st = PyFloat q /\
            rounds_to (arithmetic_mean (line_lengths data)) q /\
            (float53 (arithmetic_mean (line_lengths data)) ->
             (q == arithmetic_mean (line_lengths data))%Q) /\
            (List.Forall (fun s => len s < 2 ^ 63) data ->
             len data < 2 ^ 63 -> binary64 q)
      end.
Proof.
  intros self data w.
  destruct (analyze_data_returns self data w) as (avg & Hrun & Havg).
  eexists. split; [exact Hrun|]. cbn [avg_length].
  destruct data as [|line data]; [exact Havg|].
  destruct Havg as (q & -> & Hq & Hd).
  exists q. split; [reflexivity|]. split; [exact Hq|]. split; [|exact Hd].
  intros F. apply nearest_float_exact; [exact F | apply Hq].
Qed.

Lemma C2_avg_length_amended_witness :
  exists st,
    analyze_data scenario_processor [lit "hello"; lit "world"] empty_world
    = (Ok st, empty_world) /\
    exists q, avg_length st = PyFloat q /\ (q == 5)%Q /\ binary64 q.
Proof.
  destruct (C2_avg_length_amended scenario_processor
              [lit "hello"; lit "world"] empty_world)
    as (st & Hrun & q & Hq & _ & Hexact & Hdouble).
  exists st. split; [exact Hrun|]. exists q. split; [exact Hq|]. split.
  - rewrite Hexact; [reflexivity|].
    exists 5, 0. split; [vm_compute; discriminate | reflexivity].
  - apply Hdouble; [|vm_compute; reflexivity].
    repeat constructor.
Defined.

(** C10: every string of a Dataset returned by the Loader is non-empty
    and equal to its own trimmed form, the lines made of white space only
    being dropped like the empty ones; so the Analyzer reports
    [empty_lines = 0] on any Dataset the Loader produced. *)
Theorem C10_loader_dataset_trimmed :
  forall (self : DataProcessor) (w w' : world) (data : list text),
    read_data self w = (Ok data, w') ->
    (exists c t,
        fs w !! input_file self = Some (File c) /\
        utf8_decode (List.map byte_of (list_ascii_of_string c)) = Some t /\
        data = List.map strip (List.filter has_content (iter_lines t))) /\
    List.Forall (fun s => s <> [] /\ strip s = s) data /\
    (forall (self' : DataProcessor) (w2 : world),
        exists st,
          analyze_data self' data w2 = (Ok st, w2) /\ empty_lines st = 0).
Proof.
  intros self w w' data Hread.
  apply read_data_returns in Hread as (_ & c & t & Hf & Hd & ->).
  split; [|split].
  - exists c, t. split; [exact Hf|]. split; [exact Hd|].
    apply stripped_lines_spec.
  - apply stripped_lines_trimmed.
  - intros self' w2.
    destruct (analyze_data_returns self' (stripped_lines (iter_lines t)) w2)
      as (avg & Hrun & _).
    eexists. split; [exact Hrun|]. cbn [empty_lines].
    apply count_empty_trimmed.
    eapply List.Forall_impl; [|apply stripped_lines_trimmed].
    intros s [Hs _]. exact Hs.
Qed.

Lemma C10_loader_dataset_trimmed_witness :
  List.Forall (fun s => s <> [] /\ strip s = s) [lit "one"; lit "two"] /\
  (forall (self' : DataProcessor) (w2 : world),
      exists st,
        analyze_data self' [lit "one"; lit "two"] w2 = (Ok st, w2) /\
        empty_lines st = 0).
Proof.
  apply (C10_loader_dataset_trimmed
           {| input_file := "notes.txt" |} blank_world blank_world
           [lit "one"; lit "two"]).
  vm_compute. reflexivity.
Defined.

End LineSpec.

(* ===================================================================== *)
(** ** Properties of the pandas calls *)
(* ===================================================================== *)

Module PandasFacts.
Import Py Eff Pandas Spec FloatFacts PyFacts.

(** *** Dicts *)

Section Dict.
Context {V : Type}.

Lemma py_dict_nodup (l : list (string * V)) :
  NoDup (List.map fst l) -> py_dict l = list_to_map l.
Proof.
  intros H. unfold py_dict. apply list_to_map_proper.
  - change (NoDup (List.map fst (rev l))). rewrite List.map_rev.
    now rewrite <- Permutation_rev.
  - symmetry. apply Permutation_rev.
Qed.

Lemma py_dict_lookup (l : list (string * V)) (k : string) (v : V) :
  NoDup (List.map fst l) -> (k, v) ∈ l -> py_dict l !! k = Some v.
Proof.
  intros H Hin. rewrite (py_dict_nodup l H).
  now apply elem_of_list_to_map_1.
Qed.


Lemma py_dict_dom (l : list (string * V)) :
  dom (py_dict l) = (list_to_set (List.map fst l) : gset string).
Proof.
  unfold py_dict. rewrite dom_list_to_map_L.
  change (rev l).*1 with (List.map fst (rev l)). rewrite List.map_rev.
  apply set_eq. intros k. rewrite !elem_of_list_to_set.
  now rewrite <- Permutation_rev.
Qed.

End Dict.

Lemma dict_sum_py_dict (l : list (string * Z)) :
  NoDup (List.map fst l) ->
  dict_sum (py_dict l) = Py.sum (List.map snd l).
Proof.
  intros H. rewrite (py_dict_nodup l H). unfold dict_sum.
  induction l as [|[k v] l IH]; [reflexivity|].
  cbn [List.map fst snd] in *. apply NoDup_cons in H as [Hk Hl].
  rewrite list_to_map_cons, sum_cons.
  rewrite map_fold_insert_L.
  - now rewrite (IH Hl).
  - intros. lia.
  - now apply not_elem_of_list_to_map_1.
Qed.

(** *** The numeric summary *)

Local Open Scope Q_scope.

Lemma insert_sorted_perm (x : Q) (l : list Q) :
  Permutation (insert_sorted x l) (x :: l).
Proof.
  induction l as [|y l IH]; simpl; [reflexivity|].
  destruct (Qle_bool x y); [reflexivity|].
  rewrite IH. apply perm_swap.
Qed.

Lemma sort_perm (l : list Q) : Permutation (sort l) l.
Proof.
  induction l as [|x l IH]; simpl; [reflexivity|].
  rewrite insert_sorted_perm. now rewrite IH.
Qed.



Lemma sort_length (l : list Q) : List.length (sort l) = List.length l.
Proof. apply Permutation_length, sort_perm. Qed.






Local Close Scope Q_scope.

(** *** The categorical summary *)








(** The summary of the frame read from ["a,b\n1,2\n3,\n"], and of a
    frame of names. *)
Example describe_scenario :
  describe Scenario.scenario_frame
  = Ok [("a"%string,
         [("count"%string, Float 2); ("mean"%string, Mean [1; 3]%Q);
          ("std"%string, Std [1; 3]%Q); ("min"%string, Float 1);
          ("25%"%string, Quantile Linear (1 # 4) [1; 3]%Q);
          ("50%"%string, Quantile Linear (1 # 2) [1; 3]%Q);
          ("75%"%string, Quantile Linear (3 # 4) [1; 3]%Q);
          ("max"%string, Float 3)]);
        ("b"%string,
         [("count"%string, Float 1); ("mean"%string, Mean [2]%Q);
          ("std"%string, Std [2]%Q); ("min"%string, Float 2);
          ("25%"%string, Quantile Linear (1 # 4) [2]%Q);
          ("50%"%string, Quantile Linear (1 # 2) [2]%Q);
          ("75%"%string, Quantile Linear (3 # 4) [2]%Q);
          ("max"%string, Float 2)])].
Proof. vm_compute. reflexivity. Qed.

(** An [int64] cell above [2^53] comes back as the double next to it. *)
Example describe_large_int :
  List.map snd (describe_numeric_1d (Int64 [0; 2 ^ 53 + 1]))
  = [Float 2; Mean [0; inject_Z (2 ^ 53 + 1)]%Q;
     Std [0; inject_Z (2 ^ 53 + 1)]%Q; Float 0;
     Quantile Linear (1 # 4) [0; inject_Z (2 ^ 53 + 1)]%Q;
     Quantile Linear (1 # 2) [0; inject_Z (2 ^ 53 + 1)]%Q;
     Quantile Linear (3 # 4) [0; inject_Z (2 ^ 53 + 1)]%Q;
     Float (inject_Z (2 ^ 53))].
Proof. vm_compute. reflexivity. Qed.

Example describe_names :
  describe Scenario.names_frame
  = Ok [("name"%string,
         [("count"%string, Int 2); ("unique"%string, Int 2);
          ("top"%string, Obj (OStr "alice")); ("freq"%string, Int 1)])].
Proof. reflexivity. Qed.

Example describe_no_columns :
  describe {| nrows := 0; cols := [] |}
  = Raise (ValueError "Cannot describe a DataFrame without columns").
Proof. reflexivity. Qed.

Lemma describe_categorical_dom (s : Series) :
  dom (py_dict (describe_categorical_1d s)) = categorical_names.
Proof. unfold describe_categorical_1d. rewrite py_dict_dom. reflexivity. Qed.

End PandasFacts.

(* ===================================================================== *)
(** ** Tabular mode: the Analyzer *)
(* ===================================================================== *)

Module TabularSpec.
Import Py Eff OS Pandas Tabular Spec Scenario PyFacts PandasFacts.

(** *** What [process_data] returns *)

Lemma process_data_returns (st : state) (df : DataFrame) :
  data (self st) = Some df ->
  cols df <> [] ->
  process_data st
  = (Ok {| row_count := df_len df;
           column_count := len (columns df);
           missing_values := isnull_sum_to_dict df;
           numeric_stats :=
             summary_to_dict
               (List.map (fun c => (fst c, describe_1d (snd c)))
                  (select_data df)) |},
     logged completed st).
Proof.
  intros Hd Hc. unfold process_data, bind, get, lift, describe.
  rewrite Hd. destruct (cols df) as [|c l] eqn:E; [congruence|].
  reflexivity.
Qed.

Lemma process_data_unloaded (st : state) :
  data (self st) = None ->
  process_data st = (Raise (ValueError no_data_msg), st).
Proof.
  intros Hd. unfold process_data, bind, get, raise. now rewrite Hd.
Qed.

Lemma sum_bool_cons (b : bool) (l : list bool) :
  sum_bool (b :: l) = (if b then 1 else 0) + sum_bool l.
Proof. unfold sum_bool. cbn [List.map]. apply sum_cons. Qed.

Lemma sum_bool_map {A} (f : A -> bool) (l : list A) :
  sum_bool (List.map f l) = len (List.filter f l).
Proof.
  unfold len. induction l as [|x l IH]; [reflexivity|].
  cbn [List.map List.filter]. rewrite sum_bool_cons, IH.
  destruct (f x); cbn [List.length]; lia.
Qed.

Lemma sum_bool_bounds (l : list bool) :
  0 <= sum_bool l <= len l.
Proof.
  unfold len. induction l as [|b l IH];
    [unfold sum_bool, Py.sum; cbn [List.map fold_left List.length]; lia|].
  rewrite sum_bool_cons. cbn [List.length]. destruct b; lia.
Qed.

Lemma isnull_length (s : Series) :
  List.length (isnull s) = series_len s.
Proof. destruct s; simpl; apply List.length_map. Qed.

Lemma filter_map_ext {A B} (f : A -> B) (p : B -> bool) (q : A -> bool)
    (l : list A) :
  Forall (fun x => p (f x) = q x) l ->
  List.length (List.filter p (List.map f l))
  = List.length (List.filter q l).
Proof.
  induction 1 as [|x l Hx _ IH]; [reflexivity|].
  cbn [List.map List.filter]. rewrite Hx.
  destruct (q x); cbn [List.length]; now rewrite IH.
Qed.

(** The nulls [isnull] counts are the null or empty cells, in a column
    without empty strings. *)
Lemma isnull_missing (s : Series) :
  Forall (fun x => x <> CStr "") (cells s) ->
  sum_bool (isnull s) = len (List.filter missing (cells s)).
Proof.
  intros H. unfold len.
  destruct s as [v|v|v|v]; cbn [isnull cells] in *;
    rewrite sum_bool_map; unfold len; f_equal; symmetry;
    apply filter_map_ext; apply Forall_forall; intros x Hx;
    try reflexivity.
  - now destruct x.
  - destruct x as [[s|b]|]; try reflexivity.
    cbn [opt_cell obj_cell missing is_none].
    destruct (String.eqb_spec s ""); [|reflexivity]. subst s.
    rewrite Forall_forall in H. exfalso.
    apply (H (CStr "")); [|reflexivity].
    apply list_elem_of_In, List.in_map_iff.
    exists (Some (OStr "")). split; [reflexivity|].
    now apply list_elem_of_In.
Qed.

Lemma isnull_sum_keys (df : DataFrame) :
  List.map fst (isnull_sum df) = columns df.
Proof.
  unfold isnull_sum, columns. rewrite List.map_map. reflexivity.
Qed.

Lemma isnull_sum_total (df : DataFrame) :
  Forall (fun c => series_len (snd c) = nrows df) (cols df) ->
  Py.sum (List.map snd (isnull_sum df)) <= df_len df * len (columns df).
Proof.
  unfold isnull_sum, columns, df_len, len.
  rewrite List.map_map, List.length_map. cbn [snd].
  induction 1 as [|c l Hc _ IH];
    [unfold Py.sum; cbn [List.map fold_left List.length]; lia|].
  cbn [List.map List.length]. rewrite sum_cons.
  pose proof (sum_bool_bounds (isnull (snd c))) as [_ Hb].
  unfold len in Hb. rewrite isnull_length, Hc in Hb. lia.
Qed.

Lemma scenario_loaded : loaded scenario_frame.
Proof.
  split.
  - discriminate.
  - apply (bool_decide_unpack _). vm_compute. reflexivity.
  - repeat constructor.
  - repeat constructor; discriminate.
Qed.


Lemma records_length (df : DataFrame) : len (records df) = df_len df.
Proof.
  unfold len, records, df_len. now rewrite List.length_map, List.length_seq.
Qed.

Lemma records_keys (df : DataFrame) :
  Forall (fun r => List.map fst r = columns df) (records df).
Proof.
  apply Forall_forall. intros r Hr.
  apply list_elem_of_In, List.in_map_iff in Hr as (i & <- & _).
  unfold record_at, columns. rewrite List.map_map. reflexivity.
Qed.

Lemma column_set_size (df : DataFrame) :
  NoDup (columns df) -> Z.of_nat (size (column_set df)) = len (columns df).
Proof.
  intros H. unfold column_set, len. f_equal. now apply size_list_to_set.
Qed.

(** *** Which columns are described *)

Lemma select_data_numeric (df : DataFrame) :
  has_numeric df = true ->
  select_data df = List.filter (fun c => is_numeric (snd c)) (cols df).
Proof.
  unfold has_numeric, select_data. intros H.
  destruct (List.filter _ (cols df)) as [|c l] eqn:E; [|reflexivity].
  apply existsb_exists in H as (c & Hin & Hc).
  assert (In c (List.filter (fun c => is_numeric (snd c)) (cols df))) as Hf
    by (apply List.filter_In; auto).
  rewrite E in Hf. destruct Hf.
Qed.


Lemma filter_keys_nodup {V} (p : string * V -> bool) (l : list (string * V)) :
  NoDup (List.map fst l) -> NoDup (List.map fst (List.filter p l)).
Proof.
  induction l as [|[k v] l IH]; cbn [List.map List.filter fst]; [auto|].
  rewrite NoDup_cons. intros [Hk Hl].
  destruct (p (k, v)); [|auto].
  cbn [List.map fst]. apply NoDup_cons. split; [|auto].
  intros Hin. apply Hk.
  apply list_elem_of_In, List.in_map_iff in Hin as (c & <- & Hc).
  apply List.filter_In in Hc as [Hc _].
  apply list_elem_of_In, List.in_map_iff. eauto.
Qed.


Lemma summary_lookup (d : list (string * Series)) (label : string)
    (s : Series) :
  NoDup (List.map fst d) ->
  (label, s) ∈ d ->
  summary_to_dict (List.map (fun c => (fst c, describe_1d (snd c))) d)
    !! label
  = Some (py_dict (describe_1d s)).
Proof.
  intros H Hin. unfold summary_to_dict. rewrite List.map_map. cbn [fst snd].
  apply py_dict_lookup.
  - now rewrite List.map_map.
  - apply list_elem_of_In, List.in_map_iff.
    exists (label, s). split; [reflexivity | now apply list_elem_of_In].
Qed.


(** *** The claims on the Analyzer *)

(** C3: for a loaded, well-formed Dataset of N records and C columns the
    report has [row_count = N] and [column_count = C], C being the number
    of distinct column names, which every record carries. *)
Theorem C3_row_and_column_count :
  forall (st : state) (df : DataFrame),
    data (self st) = Some df ->
    loaded df ->
    exists stats st',
      process_data st = (Ok stats, st') /\
      row_count stats = len (records df) /\
      column_count stats = Z.of_nat (size (column_set df)) /\
      Forall (fun r => List.map fst r = columns df) (records df).
Proof.
  intros st df Hd [Hc Hl _ _].
  eexists. eexists. split; [apply (process_data_returns st df Hd Hc)|].
  cbn [row_count column_count].
  rewrite records_length, (column_set_size df Hl).
  auto using records_keys.
Qed.

Lemma C3_row_and_column_count_witness :
  exists stats st',
    process_data (holding scenario_frame) = (Ok stats, st') /\
    row_count stats = 2 /\ column_count stats = 2.
Proof.
  destruct (C3_row_and_column_count (holding scenario_frame) scenario_frame
              eq_refl scenario_loaded)
    as (stats & st' & Hrun & Hr & Hc & _).
  exists stats, st'. split; [exact Hrun|]. split.
  - rewrite Hr. reflexivity.
  - rewrite Hc. vm_compute. reflexivity.
Defined.

(** C5: [missing_values] has one entry per column, holding the exact
    number of null or empty cells of that column, and the sum of the
    entries is at most [row_count * column_count]. *)
Theorem C5_missing_values :
  forall (st : state) (df : DataFrame),
    data (self st) = Some df ->
    loaded df ->
    exists stats st',
      process_data st = (Ok stats, st') /\
      dom (missing_values stats) = column_set df /\
      (forall label s,
          (label, s) ∈ cols df ->
          missing_values stats !! label
          = Some (len (List.filter missing (cells s)))) /\
      0 <= dict_sum (missing_values stats)
        <= row_count stats * column_count stats.
Proof.
  intros st df Hd [Hc Hl Hr Hf].
  eexists. eexists. split; [apply (process_data_returns st df Hd Hc)|].
  cbn [missing_values row_count column_count].
  unfold isnull_sum_to_dict. split; [|split].
  - rewrite py_dict_dom, isnull_sum_keys. reflexivity.
  - intros label s Hin.
    rewrite Forall_forall in Hf.
    rewrite <- (isnull_missing s (Hf (label, s) Hin)).
    apply py_dict_lookup; [now rewrite isnull_sum_keys|].
    unfold isnull_sum. apply list_elem_of_In, List.in_map_iff.
    exists (label, s). split; [reflexivity | now apply list_elem_of_In].
  - rewrite dict_sum_py_dict by now rewrite isnull_sum_keys.
    split; [|now apply isnull_sum_total].
    unfold isnull_sum. rewrite List.map_map. cbn [snd].
    clear. induction (cols df) as [|c l IH];
      [unfold Py.sum; cbn [List.map fold_left]; lia|].
    cbn [List.map]. rewrite sum_cons.
    pose proof (sum_bool_bounds (isnull (snd c))). lia.
Qed.

Lemma C5_missing_values_witness :
  exists stats st',
    process_data (holding scenario_frame) = (Ok stats, st') /\
    missing_values stats !! "a"%string = Some 0 /\
    missing_values stats !! "b"%string = Some 1 /\
    0 <= dict_sum (missing_values stats) <= 4.
Proof.
  destruct (C5_missing_values (holding scenario_frame) scenario_frame
              eq_refl scenario_loaded)
    as (stats & st' & Hrun & _ & Hl & Hs).
  exists stats, st'. split; [exact Hrun|].
  split; [|split].
  - rewrite (Hl "a"%string (Int64 [1; 3])); [reflexivity|].
    repeat constructor.
  - rewrite (Hl "b"%string (Float64 [Some 2%Q; None])); [reflexivity|].
    repeat constructor.
  - pose proof (process_data_returns (holding scenario_frame) scenario_frame
                  eq_refl ltac:(discriminate)) as Hrun'.
    rewrite Hrun in Hrun'. injection Hrun' as -> _.
    exact Hs.
Defined.




(** C8: the Analyzer raises the error of the unloaded state,
    [ValueError("No data loaded. Call load_data() first.")], exactly when
    no Dataset has been loaded; the state is then left as it was; and on
    a loaded Dataset, which has a column, it returns statistics. *)
Theorem C8_invalid_state :
  forall st : state,
    (fst (process_data st) = Raise (ValueError no_data_msg)
     <-> data (self st) = None) /\
    (data (self st) = None -> snd (process_data st) = st) /\
    (forall df, data (self st) = Some df -> cols df <> [] ->
                exists stats, fst (process_data st) = Ok stats).
Proof.
  intros st. split; [split|split].
  - intros H. destruct (data (self st)) as [df|] eqn:Hd; [|reflexivity].
    exfalso. revert H. unfold process_data, bind, get, lift, describe.
    rewrite Hd. destruct (cols df); cbn; [|discriminate].
    intros [=].
  - intros Hd. now rewrite (process_data_unloaded st Hd).
  - intros Hd. now rewrite (process_data_unloaded st Hd).
  - intros df Hd Hc. rewrite (process_data_returns st df Hd Hc).
    eexists. reflexivity.
Qed.

Lemma C8_invalid_state_witness :
  snd (process_data (fresh empty_world "data.csv" "./output"))
  = fresh empty_world "data.csv" "./output" /\
  exists stats, fst (process_data (holding scenario_frame)) = Ok stats.
Proof.
  split.
  - destruct (C8_invalid_state (fresh empty_world "data.csv" "./output"))
      as (_ & Hsame & _).
    apply Hsame. reflexivity.
  - destruct (C8_invalid_state (holding scenario_frame)) as (_ & _ & Hok).
    apply (Hok scenario_frame); [reflexivity | discriminate].
Defined.

End TabularSpec.

(* ===================================================================== *)
(** ** The pipeline: Loader, Analyzer, Writer *)
(* ===================================================================== *)

Module PipelineSpec.
Import Py Eff OS Pandas Tabular Spec Scenario TabularSpec.

Section Codecs.

Variable parse_csv : string -> list N -> result DataFrame.
Variable to_csv : DataFrame -> string.
Variable to_json : Stats -> string.







End Codecs.





End PipelineSpec.

(* ===================================================================== *)
(** ** Paths *)
(* ===================================================================== *)

Module PathFacts.
Import Py Eff OS Scenario Runs.

(** *** Paths on small inputs *)

(** What [pathlib] makes of a path: the empty path is ["."], a trailing
    slash and a leading ["./"] go, two leading slashes stay, [".."] is
    kept. *)
Example Path_spellings :
  List.map Path
    [""; "input.txt/"; "./input.txt"; "//a"; "///a//b/./c/"; "a/../b"]%string
  = ["."; "input.txt"; "input.txt"; "//a"; "/a/b/c"; "a/../b"]%string.
Proof. vm_compute. reflexivity. Qed.

Example ancestors_nested :
  ancestors "out/run/statistics.json" = ["out"; "out/run"]%string.
Proof. vm_compute. reflexivity. Qed.

(** Below a regular file nothing can be opened or created. *)
Example read_below_file :
  fst (read_bytes "input.txt/data.csv" slash_world)
  = Raise (NotADirectoryError "input.txt/data.csv").
Proof. vm_compute. reflexivity. Qed.

Example makedirs_refused :
  fst (makedirs "" slash_world) = Raise (FileNotFoundError "") /\
  fst (makedirs "input.txt/out" slash_world)
  = Raise (NotADirectoryError "input.txt/out") /\
  fst (makedirs "input.txt" slash_world)
  = Raise (FileExistsError "input.txt") /\
  fst (makedirs "." slash_world) = Ok tt.
Proof. repeat split; vm_compute; reflexivity. Qed.

(** The directories on the way are made too. *)
Example makedirs_parents :
  fs (snd (makedirs "out/run" slash_world))
  = <["out/run"%string := Dir]> (<["out"%string := Dir]> (fs slash_world)).
Proof. reflexivity. Qed.

(** *** Joined paths *)

Lemma append_length (a b : string) :
  String.length (a ++ b) = (String.length a + String.length b)%nat.
Proof.
  induction a as [|c a IH]; [reflexivity|].
  change (String c a ++ b)%string with (String c (a ++ b)).
  cbn [String.length]. now rewrite IH.
Qed.

Lemma append_cancel (a x y : string) :
  (a ++ x)%string = (a ++ y)%string -> x = y.
Proof. apply (inj (String.app a)). Qed.

(** Joining a name to a directory gives a longer path. *)
Lemma path_join_longer (a b : string) :
  b <> ""%string ->
  (String.length a < String.length (path_join a b))%nat.
Proof.
  intros Hb. unfold path_join.
  assert (0 < String.length b)%nat by (destruct b; [congruence | cbn; lia]).
  destruct (String.eqb_spec a ""); [subst; exact H|].
  destruct (ends_with_slash a); rewrite ?append_length; cbn; lia.
Qed.

Lemma path_join_neq (a b : string) : b <> ""%string -> path_join a b <> a.
Proof.
  intros Hb E. pose proof (path_join_longer a b Hb) as H.
  rewrite E in H. lia.
Qed.

Lemma path_join_inj (a b b' : string) :
  path_join a b = path_join a b' -> b = b'.
Proof.
  unfold path_join. destruct (String.eqb a ""); [auto|].
  destruct (ends_with_slash a); intros H.
  - now apply append_cancel in H.
  - apply append_cancel in H. now injection H.
Qed.

Lemma stats_path_neq_out (out : string) : stats_path out <> out.
Proof. now apply path_join_neq. Qed.

Lemma data_path_neq_out (out : string) : data_path out <> out.
Proof. now apply path_join_neq. Qed.

Lemma stats_path_neq_data (out : string) : stats_path out <> data_path out.
Proof. intros E. apply path_join_inj in E. discriminate E. Qed.

End PathFacts.

(* ===================================================================== *)
(** ** Line mode: whole runs *)
(* ===================================================================== *)

Module LineRuns.
Import Py Eff OS LineMode Spec Scenario Runs FloatFacts PyFacts LineSpec.

(** *** Step by step *)

Lemma init_run (path : string) (w : world) :
  init path w
  = match fs w !! Path path with
    | Some _ => (Ok {| input_file := Path path |}, w)
    | None => (Raise (FileNotFoundError path), w)
    end.
Proof.
  unfold init, exists_, bind, get, ret, raise. cbn [input_file].
  destruct (fs w !! Path path) as [n|]; reflexivity.
Qed.

Lemma read_data_run (p : DataProcessor) (w : world) :
  read_data p w
  = match fs w !! input_file p with
    | Some (File c) =>
        match utf8_decode (file_bytes c) with
        | Some t => (Ok (stripped_lines (iter_lines t)), w)
        | None =>
            (Raise UnicodeDecodeError,
             with_log [LogRecord ERROR "Error reading file: "
                         (ArgExn UnicodeDecodeError)] w)
        end
    | Some Dir =>
        (Raise (IsADirectoryError (input_file p)),
         with_log [LogRecord ERROR "Error reading file: "
                     (ArgExn (IsADirectoryError (input_file p)))] w)
    | None =>
        (Raise (missing_error (fs w) (input_file p)),
         with_log [LogRecord ERROR "Error reading file: "
                     (ArgExn (missing_error (fs w) (input_file p)))] w)
    end.
Proof.
  unfold read_data, try_except, read_text, read_bytes, bind, get, ret, raise,
    logger, modify, file_bytes, with_log, missing_error.
  destruct (fs w !! input_file p) as [[|c]|]; try reflexivity.
  - destruct (utf8_decode _); reflexivity.
  - destruct (below_file _ _); reflexivity.
Qed.

Lemma print_items_run (l : list (string * num)) (w : world) :
  print_items l w
  = (Ok tt,
     with_stdout
       (List.map (fun kv => ((title (fst kv) ++ ": ")%string, Some (snd kv)))
          l) w).
Proof.
  revert w. induction l as [|[k v] l IH]; intros w.
  - unfold with_stdout. cbn. rewrite app_nil_r. now destruct w.
  - cbn [print_items]. unfold bind, print, modify. rewrite IH.
    unfold with_stdout. cbn. now rewrite <- app_assoc.
Qed.

(** The report [analyze_data] returns, whatever the environment. *)
Lemma analyze_data_report (p : DataProcessor) (data : list text) (w : world) :
  exists st,
    analyze_data p data w = (Ok st, w) /\
    total_lines st = len data /\
    empty_lines st = count_empty data.
Proof.
  destruct (analyze_data_returns p data w) as (avg & Hrun & _).
  eexists. split; [exact Hrun|]. split; reflexivity.
Qed.

Lemma process_run (p : DataProcessor) (w : world) :
  process p w
  = match read_data p
            (with_log [LogRecord INFO "Processing file: "
                         (ArgPath (input_file p))] w) with
    | (Ok data, w') => analyze_data p data w'
    | (Raise e, w') => (Raise e, w')
    end.
Proof. reflexivity. Qed.

(** A whole run of [main], case by case. *)
Lemma main_run (path : string) (w : world) :
  match fs w !! Path path with
  | Some (File c) =>
      match utf8_decode (file_bytes c) with
      | Some t =>
          exists st,
            analyze_data {| input_file := Path path |}
              (stripped_lines (iter_lines t)) w = (Ok st, w) /\
            main path w
            = (Ok 0,
               with_stdout (printed st)
                 (with_log [LogRecord INFO "Processing file: "
                              (ArgPath (Path path))] w))
      | None =>
          main path w
          = (Ok 1,
             with_log [LogRecord INFO "Processing file: "
                         (ArgPath (Path path));
                       LogRecord ERROR "Error reading file: "
                         (ArgExn UnicodeDecodeError);
                       LogRecord ERROR "Error processing file: "
                         (ArgExn UnicodeDecodeError)] w)
      end
  | Some Dir =>
      main path w
      = (Ok 1,
         with_log [LogRecord INFO "Processing file: " (ArgPath (Path path));
                   LogRecord ERROR "Error reading file: "
                     (ArgExn (IsADirectoryError (Path path)));
                   LogRecord ERROR "Error processing file: "
                     (ArgExn (IsADirectoryError (Path path)))] w)
  | None =>
      main path w
      = (Ok 1,
         with_log [LogRecord ERROR "Error processing file: "
                     (ArgExn (FileNotFoundError path))] w)
  end.
Proof.
  unfold main, try_except, bind. rewrite init_run.
  destruct (fs w !! Path path) as [[|c]|] eqn:Hf.
  - rewrite process_run, read_data_run.
    cbn [input_file fs with_log]. rewrite Hf.
    unfold logger, modify, ret, with_log. cbn [fs log stdout].
    now rewrite <- ?app_assoc.
  - destruct (utf8_decode (file_bytes c)) as [t|] eqn:Hd.
    + destruct (analyze_data_returns {| input_file := Path path |}
                  (stripped_lines (iter_lines t)) w) as (avg & Hrun & _).
      eexists. split; [exact Hrun|].
      rewrite process_run, read_data_run.
      cbn [input_file fs with_log]. rewrite Hf, Hd.
      match goal with
      | |- context [analyze_data ?p ?d ?w'] =>
          destruct (analyze_data_returns p d w') as (avg' & Hrun' & _);
          rewrite Hrun'
      end.
      assert (avg' = avg) as ->.
      { unfold analyze_data, bind, ret, raise in Hrun, Hrun'.
        destruct (truthy _); [|congruence].
        destruct (truediv _ _); congruence. }
      unfold print, modify. rewrite print_items_run.
      unfold ret, with_stdout, with_log, printed.
      cbn [fs log stdout]. now rewrite <- app_assoc.
    + rewrite process_run, read_data_run.
      cbn [input_file fs with_log]. rewrite Hf, Hd.
      unfold logger, modify, ret, with_log. cbn [fs log stdout].
      now rewrite <- ?app_assoc.
  - unfold logger, raise, modify, ret, with_log. reflexivity.
Qed.

(** The empty argument is the current directory, which cannot be read;
    a trailing slash is dropped before the file is opened. *)
Example main_on_empty_argument :
  main "" slash_world
  = (Ok 1,
     with_log [LogRecord INFO "Processing file: " (ArgPath ".");
               LogRecord ERROR "Error reading file: "
                 (ArgExn (IsADirectoryError "."));
               LogRecord ERROR "Error processing file: "
                 (ArgExn (IsADirectoryError "."))] slash_world).
Proof. vm_compute. reflexivity. Qed.

Example main_on_trailing_slash :
  fst (main "input.txt/" slash_world) = Ok 0 /\
  fst (main "input.txt/x" slash_world) = Ok 1.
Proof. split; vm_compute; reflexivity. Qed.

(** *** Facts about the text layer *)

Lemma utf8_decode_ascii (bs : list N) :
  forallb (fun b => (b <? 0x80)%N) bs = true -> utf8_decode bs = Some bs.
Proof.
  induction bs as [|b bs IH]; [reflexivity|].
  cbn [forallb]. intros H. apply andb_prop in H as [Hb Hbs].
  cbn [utf8_decode]. rewrite Hb, (IH Hbs). reflexivity.
Qed.

Lemma universal_newlines_id (t : text) :
  no_cr t = true -> universal_newlines t = t.
Proof.
  induction t as [|c t IH]; [reflexivity|].
  cbn [no_cr forallb]. intros H. apply andb_prop in H as [Hc Ht].
  cbn [universal_newlines].
  destruct (c =? CR)%N; [discriminate|]. now rewrite (IH Ht).
Qed.

Lemma universal_newlines_crlf (t : text) :
  no_cr t = true -> universal_newlines (to_crlf t) = t.
Proof.
  induction t as [|c t IH]; [reflexivity|].
  cbn [no_cr forallb]. intros H. apply andb_prop in H as [Hc Ht].
  specialize (IH Ht). unfold to_crlf in *. cbn [flat_map].
  destruct (c =? LF)%N eqn:E.
  - apply N.eqb_eq in E. subst c. cbn. now rewrite IH.
  - cbn [app universal_newlines].
    destruct (c =? CR)%N; [discriminate|]. now rewrite IH.
Qed.

Lemma dropwhile_prefix {A} (p : A -> bool) (l : list A) :
  exists pre, l = pre ++ dropwhile p l /\ forallb p pre = true.
Proof.
  induction l as [|x l (pre & Hl & Hpre)].
  - exists []. split; reflexivity.
  - cbn [dropwhile]. destruct (p x) eqn:E.
    + exists (x :: pre). split; [cbn; now rewrite <- Hl|].
      cbn. now rewrite E, Hpre.
    + exists []. split; reflexivity.
Qed.

(** [strip] takes white space off both ends and nothing else. *)
Lemma strip_segment (t : text) :
  exists pre post,
    t = pre ++ strip t ++ post /\
    forallb isspace pre = true /\ forallb isspace post = true.
Proof.
  unfold strip, lstrip, rstrip.
  destruct (dropwhile_prefix isspace t) as (pre & Ht & Hpre).
  destruct (dropwhile_prefix isspace (rev (dropwhile isspace t)))
    as (q & Hu & Hq).
  exists pre, (rev q). split; [|split].
  - rewrite <- rev_app_distr, <- Hu, rev_involutive. exact Ht.
  - exact Hpre.
  - now rewrite forallb_rev.
Qed.

Lemma total_length_nonempty (data : list text) :
  List.Forall (fun s => s <> []) data -> len data <= total_length data.
Proof.
  unfold total_length.
  induction 1 as [|s data Hs _ IH]; [reflexivity|].
  cbn [List.map]. rewrite sum_cons.
  destruct s as [|c s]; [congruence|].
  unfold len in *. cbn [List.length]. lia.
Qed.

Lemma count_empty_bounds (data : list text) :
  0 <= count_empty data <= len data.
Proof.
  unfold count_empty. rewrite sum_ones. unfold len.
  pose proof (List.filter_length_le
                (fun line : text => negb (truthy line)) data).
  unfold text in *. lia.
Qed.

(** *** Whole runs of line mode *)

Lemma readable_cases (w : world) (path : string) :
  readable w path = true <->
  exists c t, fs w !! path = Some (File c) /\
              utf8_decode (file_bytes c) = Some t.
Proof.
  unfold readable. split.
  - destruct (fs w !! path) as [[|c]|]; try discriminate.
    destruct (utf8_decode (file_bytes c)) as [t|] eqn:Hd; [|discriminate].
    intros _. exists c, t. split; [reflexivity | exact Hd].
  - intros (c & t & -> & ->). reflexivity.
Qed.

(** [main] never raises: it ends with status 0 when the path, as
    [pathlib] normalises it, names a file that decodes as UTF-8, and with
    status 1 in every other case. *)
Theorem line_main_status :
  forall (path : string) (w : world),
    fst (main path w) = Ok (if readable w (Path path) then 0 else 1).
Proof.
  intros path w. pose proof (main_run path w) as H. unfold readable.
  destruct (fs w !! Path path) as [[|c]|]; try now rewrite H.
  destruct (utf8_decode (file_bytes c)); [|now rewrite H].
  destruct H as (st & _ & ->). reflexivity.
Qed.

(** Line mode writes no file: whatever the argument, [main] leaves the
    file system as it found it. *)
Theorem line_main_keeps_files :
  forall (path : string) (w : world),
    fs (snd (main path w)) = fs w.
Proof.
  intros path w. pose proof (main_run path w) as H.
  destruct (fs w !! Path path) as [[|c]|]; try now rewrite H.
  destruct (utf8_decode (file_bytes c)); [|now rewrite H].
  destruct H as (st & _ & ->). reflexivity.
Qed.

(** On a readable file [main] prints the heading and then the three
    statistics in the order of the dict, under their title-cased keys:
    the number of lines with content, zero empty lines, and the average
    the Analyzer computed from the stripped lines. *)
Theorem line_main_prints :
  forall (path : string) (w : world) (c : string) (t : text),
    fs w !! Path path = Some (File c) ->
    utf8_decode (file_bytes c) = Some t ->
    exists st,
      analyze_data {| input_file := Path path |}
        (List.map strip (List.filter has_content (iter_lines t))) w
      = (Ok st, w) /\
      stdout (snd (main path w))
      = stdout w
        ++ [(String (ascii_of_nat 10) "Analysis Results:", None);
            ("Total Lines: "%string,
             Some (PyInt (len (List.filter has_content (iter_lines t)))));
            ("Empty Lines: "%string, Some (PyInt 0));
            ("Avg Length: "%string, Some (avg_length st))].
Proof.
  intros path w c t Hf Hd. pose proof (main_run path w) as H.
  rewrite Hf, Hd in H. destruct H as (st & Hrun & ->).
  rewrite <- stripped_lines_spec. exists st. split; [exact Hrun|].
  destruct (analyze_data_returns {| input_file := Path path |}
              (stripped_lines (iter_lines t)) w) as (avg & Hrun' & _).
  rewrite Hrun in Hrun'. injection Hrun' as ->.
  cbn [snd with_stdout with_log stdout printed items total_lines empty_lines
       avg_length List.map fst].
  rewrite (count_empty_trimmed (stripped_lines (iter_lines t))).
  - rewrite stripped_lines_spec at 1. unfold len at 1.
    rewrite List.length_map. reflexivity.
  - eapply List.Forall_impl; [|apply stripped_lines_trimmed].
    intros s [Hs _]. exact Hs.
Qed.


(** A file of ASCII bytes is always read: [main] ends with status 0. *)
Theorem line_main_ascii :
  forall (path : string) (w : world) (c : string),
    fs w !! Path path = Some (File c) ->
    is_ascii c = true ->
    fst (main path w) = Ok 0.
Proof.
  intros path w c Hf Ha. pose proof (main_run path w) as H.
  rewrite Hf, (utf8_decode_ascii (file_bytes c) Ha) in H.
  destruct H as (st & _ & ->). reflexivity.
Qed.

(** On any list of strings the Analyzer counts at most as many empty
    lines as it counts lines. *)
Theorem analyze_data_counts :
  forall (p : DataProcessor) (data : list text) (w : world),
    exists st,
      analyze_data p data w = (Ok st, w) /\
      0 <= empty_lines st <= total_lines st.
Proof.
  intros p data w.
  destruct (analyze_data_returns p data w) as (avg & Hrun & _).
  eexists. split; [exact Hrun|]. cbn [empty_lines total_lines].
  apply count_empty_bounds.
Qed.

Lemma process_returns (p : DataProcessor) (w w' : world) (st : Stats) :
  process p w = (Ok st, w') ->
  exists c t,
    fs w !! input_file p = Some (File c) /\
    utf8_decode (file_bytes c) = Some t /\
    analyze_data p (stripped_lines (iter_lines t)) w' = (Ok st, w').
Proof.
  rewrite process_run, read_data_run. cbn [fs with_log].
  destruct (fs w !! input_file p) as [[|c]|]; try discriminate.
  destruct (utf8_decode (file_bytes c)) as [t|] eqn:Hd; try discriminate.
  intros H. exists c, t. split; [reflexivity|]. split; [exact Hd|].
  destruct (analyze_data_returns p (stripped_lines (iter_lines t))
              (with_log [LogRecord INFO "Processing file: "
                           (ArgPath (input_file p))] w))
    as (avg & Hrun & _).
  rewrite Hrun in H. injection H as <- <-. exact Hrun.
Qed.

(** What [process] reports about a file: either no line at all and the
    int 0 as average, or an average that is at least 1, since no line of
    the Dataset is empty. *)
Theorem process_average_at_least_one :
  forall (p : DataProcessor) (w w' : world) (st : Stats),
    process p w = (Ok st, w') ->
    (total_lines st = 0 /\ avg_length st = PyInt 0) \/
    (0 < total_lines st /\
     exists q, avg_length st = PyFloat q /\ (1 <= q)%Q).
Proof.
  intros p w w' st H.
  apply process_returns in H as (c & t & _ & _ & Hrun).
  set (data := stripped_lines (iter_lines t)) in *.
  assert (Hne : List.Forall (fun s : text => s <> []) data).
  { eapply List.Forall_impl; [|apply stripped_lines_trimmed].
    intros s [Hs _]. exact Hs. }
  pose proof (total_length_nonempty data Hne) as Hlen.
  destruct (analyze_data_returns p data w') as (avg & Hrun' & Havg).
  rewrite Hrun in Hrun'. injection Hrun' as ->.
  cbn [total_lines avg_length].
  destruct data as [|line data'] eqn:E.
  - left. split; [reflexivity | exact Havg].
  - rewrite <- E in *. right.
    assert (Hpos : 0 < len data) by (rewrite E; unfold len; cbn; lia).
    split; [exact Hpos|].
    destruct Havg as (q & -> & Hq & _). exists q. split; [reflexivity|].
    apply (nearest_float_ge 1 (arithmetic_mean (line_lengths data)) q).
    + apply (float53_Z 1). vm_compute. discriminate.
    + rewrite <- total_length_mean.
      apply Qle_shift_div_l; [apply inject_pos, Hpos|].
      rewrite Qmult_1_l, <- Zle_Qle. exact Hlen.
    + apply Hq.
Qed.

(** The Dataset does not depend on how the lines of the file end: a
    text without [\r] and the same text with every line end written
    [\r\n] load to the same list. *)
Theorem read_data_line_ends :
  forall (p1 p2 : DataProcessor) (w1 w2 : world) (c1 c2 : string)
         (t : text),
    fs w1 !! input_file p1 = Some (File c1) ->
    utf8_decode (file_bytes c1) = Some t ->
    no_cr t = true ->
    fs w2 !! input_file p2 = Some (File c2) ->
    utf8_decode (file_bytes c2) = Some (to_crlf t) ->
    fst (read_data p1 w1) = fst (read_data p2 w2).
Proof.
  intros p1 p2 w1 w2 c1 c2 t Hf1 Hd1 Hcr Hf2 Hd2.
  rewrite !read_data_run, Hf1, Hd1, Hf2, Hd2. cbn [fst].
  unfold iter_lines.
  now rewrite (universal_newlines_crlf t Hcr), (universal_newlines_id t Hcr).
Qed.

(** Every string of the Dataset is a line of the file with white space
    taken off its two ends, and with nothing else changed. *)
Theorem read_data_segments :
  forall (p : DataProcessor) (w w' : world) (data : list text),
    read_data p w = (Ok data, w') ->
    exists c t,
      fs w !! input_file p = Some (File c) /\
      utf8_decode (file_bytes c) = Some t /\
      List.Forall
        (fun s =>
           exists line pre post,
             In line (iter_lines t) /\
             line = pre ++ s ++ post /\
             forallb isspace pre = true /\
             forallb isspace post = true)
        data.
Proof.
  intros p w w' data H.
  apply read_data_returns in H as (_ & c & t & Hf & Hd & ->).
  exists c, t. split; [exact Hf|]. split; [exact Hd|].
  apply List.Forall_forall. intros s Hin.
  unfold stripped_lines in Hin.
  apply List.in_map_iff in Hin as (line & <- & Hin).
  apply List.filter_In in Hin as [Hin _].
  destruct (strip_segment line) as (pre & post & Hline & Hpre & Hpost).
  exists line, pre, post. auto.
Qed.

(** *** The runs above on concrete files *)

Lemma line_main_prints_witness :
  stdout (snd (main "input.txt" scenario_world))
  = [(String (ascii_of_nat 10) "Analysis Results:", None);
     ("Total Lines: "%string, Some (PyInt 2));
     ("Empty Lines: "%string, Some (PyInt 0));
     ("Avg Length: "%string, Some (PyFloat 5))].
Proof.
  destruct (line_main_prints "input.txt" scenario_world scenario_bytes
              (lit scenario_bytes) eq_refl eq_refl) as (st & Hrun & ->).
  vm_compute in Hrun. injection Hrun as <-. reflexivity.
Defined.


Lemma line_main_ascii_witness :
  fst (main "./input.txt" scenario_world) = Ok 0.
Proof.
  apply (line_main_ascii "./input.txt" scenario_world scenario_bytes);
    vm_compute; reflexivity.
Defined.

Lemma process_average_at_least_one_witness :
  (2 = 0 /\ PyFloat 5 = PyInt 0) \/
  (0 < 2 /\ exists q, PyFloat 5 = PyFloat q /\ (1 <= q)%Q).
Proof.
  apply (process_average_at_least_one scenario_processor scenario_world
           (snd (process scenario_processor scenario_world))
           {| total_lines := 2; empty_lines := 0; avg_length := PyFloat 5 |}).
  vm_compute. reflexivity.
Defined.

Lemma read_data_line_ends_witness :
  fst (read_data {| input_file := "unix.txt" |} two_files)
  = fst (read_data {| input_file := "dos.txt" |} two_files).
Proof.
  apply (read_data_line_ends
           {| input_file := "unix.txt" |} {| input_file := "dos.txt" |}
           two_files two_files
           ("one" ++ lf ++ " two" ++ lf)%string
           ("one" ++ cr ++ lf ++ " two" ++ cr ++ lf)%string
           (lit ("one" ++ lf ++ " two" ++ lf)%string));
    vm_compute; reflexivity.
Defined.

Lemma read_data_segments_witness :
  exists c t,
    fs blank_world !! "notes.txt"%string = Some (File c) /\
    utf8_decode (file_bytes c) = Some t /\
    List.Forall
      (fun s =>
         exists line pre post,
           In line (iter_lines t) /\
           line = pre ++ s ++ post /\
           forallb isspace pre = true /\
           forallb isspace post = true)
      [lit "one"; lit "two"].
Proof.
  apply (read_data_segments {| input_file := "notes.txt" |} blank_world
           blank_world [lit "one"; lit "two"]).
  vm_compute. reflexivity.
Defined.

End LineRuns.

(* ===================================================================== *)
(** ** Tabular mode: whole runs *)
(* ===================================================================== *)

Module TabularRuns.
Import Py Eff OS Pandas Tabular Spec Scenario Runs PathFacts TabularSpec.

Section Codecs.

Variable parse_csv : string -> list N -> result DataFrame.
Variable to_csv : DataFrame -> string.
Variable to_json : Stats -> string.

(** *** Step by step *)

Lemma load_data_run (st : state) :
  load_data parse_csv st
  = match fs (env st) !! input_file (self st) with
    | Some (File c) =>
        match parse_csv (input_file (self st)) (file_bytes c) with
        | Ok df =>
            (Ok tt,
             moved (fs (env st)) [loaded_from (input_file (self st))]
               (set_data (Some df) st))
        | Raise e => (Raise e, moved (fs (env st)) [load_error e] st)
        end
    | Some Dir =>
        (Raise (IsADirectoryError (input_file (self st))),
         moved (fs (env st))
           [load_error (IsADirectoryError (input_file (self st)))] st)
    | None =>
        let e := missing_error (fs (env st)) (input_file (self st)) in
        (Raise e, moved (fs (env st)) [load_error e] st)
    end.
Proof.
  destruct st as [w p]. run.
  unfold file_bytes, moved, set_env, set_data, missing_error.
  destruct (fs w !! input_file p) as [[|c]|]; try reflexivity.
  - destruct (parse_csv _ _); reflexivity.
  - destruct (below_file _ _); reflexivity.
Qed.

Lemma save_results_run (stats : Stats) (st : state) :
  save_results to_csv to_json stats st
  = let out := output_dir (self st) in
    match refused (fs (env st)) out with
    | Some e => (Raise e, st)
    | None =>
        let f1 := made out (fs (env st)) in
        match f1 !! stats_path out with
        | Some Dir =>
            (Raise (IsADirectoryError (stats_path out)), moved f1 [] st)
        | _ =>
            let f2 := <[stats_path out := File (to_json stats)]> f1 in
            match data (self st) with
            | None =>
                (Raise (AttributeError
                          "'NoneType' object has no attribute 'to_csv'"),
                 moved f2 [stats_saved out] st)
            | Some df =>
                match f2 !! data_path out with
                | Some Dir =>
                    (Raise (IsADirectoryError (data_path out)),
                     moved f2 [stats_saved out] st)
                | _ =>
                    (Ok tt,
                     moved (<[data_path out := File (to_csv df)]> f2)
                       [stats_saved out; data_saved out] st)
                end
            end
        end
    end.
Proof.
  destruct st as [[f l o] [i out d]]. run.
  unfold moved, set_env, made, refused, stats_path, data_path, stats_saved,
    data_saved.
  norm.
  destruct (f !! out) as [[|c]|] eqn:Hout;
    [| |destruct (String.eqb out ""), (below_file f out)]; norm;
    rewrite ?app_nil_r; try reflexivity.
  all: match goal with
       | |- context [match ?m !! ?k with _ => _ end] =>
           destruct (m !! k) as [[|?]|] eqn:?; norm;
           rewrite ?app_nil_r; try reflexivity
       end.
  all: destruct d as [df|]; norm; try reflexivity.
  all: match goal with
       | |- context [match ?m !! ?k with _ => _ end] =>
           destruct (m !! k) as [[|?]|] eqn:?; norm;
           rewrite <- ?app_assoc; try reflexivity
       end.
Qed.

(** *** The Loader *)


(** A load that fails raises what the reader or the parser raised,
    after logging it, and leaves the processor as it was: a Dataset
    loaded earlier is kept. *)
Theorem load_data_failure :
  forall (st st' : state) (e : exn),
    load_data parse_csv st = (Raise e, st') ->
    self st' = self st /\
    fs (env st') = fs (env st) /\
    log (env st') = log (env st) ++ [load_error e].
Proof.
  intros st st' e. rewrite load_data_run.
  destruct (fs (env st) !! input_file (self st)) as [[|c]|].
  - intros [= <- <-]. repeat split; reflexivity.
  - destruct (parse_csv _ _) as [df|e']; [discriminate|].
    intros [= <- <-]. repeat split; reflexivity.
  - cbv zeta. intros [= <- <-]. repeat split; reflexivity.
Qed.


(** *** The Writer *)


(** When the output directory is an existing file, [save_results]
    raises [FileExistsError] and nothing is written or logged. *)
Theorem save_results_dir_is_file :
  forall (stats : Stats) (st : state) (c : string),
    fs (env st) !! output_dir (self st) = Some (File c) ->
    save_results to_csv to_json stats st
    = (Raise (FileExistsError (output_dir (self st))), st).
Proof.
  intros stats st c Hout. rewrite save_results_run. cbv zeta.
  unfold refused. now rewrite Hout.
Qed.


(** Saving is repeatable: after a [save_results] that returned, the same
    call returns again and leaves the file system as the first one did. *)
Theorem save_results_again :
  forall (stats : Stats) (st st1 : state),
    save_results to_csv to_json stats st = (Ok tt, st1) ->
    exists st2,
      save_results to_csv to_json stats st1 = (Ok tt, st2) /\
      self st2 = self st1 /\
      fs (env st2) = fs (env st1).
Proof.
  intros stats st st1. rewrite save_results_run. cbv zeta.
  set (out := output_dir (self st)).
  pose proof (stats_path_neq_data out) as Hne.
  pose proof (stats_path_neq_out out) as Hso.
  pose proof (data_path_neq_out out) as Hdo.
  assert (Hmade : made out (fs (env st)) !! out = Some Dir \/
                  exists e, refused (fs (env st)) out = Some e).
  { unfold made, refused.
    destruct (fs (env st) !! out) as [[|c]|] eqn:E; eauto.
    left. apply lookup_insert_eq. }
  intros H.
  assert (exists df f2,
             data (self st) = Some df /\
             f2 !! out = Some Dir /\
             st1 = moved (<[data_path out := File (to_csv df)]>
                            (<[stats_path out := File (to_json stats)]> f2))
                     [stats_saved out; data_saved out] st)
    as (df & f2 & Hd & Hout & ->).
  { destruct Hmade as [Hm|[e He]]; [|rewrite He in H; discriminate].
    destruct (refused (fs (env st)) out); try discriminate;
      destruct (made out (fs (env st)) !! stats_path out) as [[|?]|];
      try discriminate;
      destruct (data (self st)) as [df|]; try discriminate;
      match type of H with
      | context [match ?m !! ?k with _ => _ end] =>
          destruct (m !! k) as [[|?]|]; try discriminate
      end;
      injection H as <-; exists df, (made out (fs (env st))); auto. }
  clear H Hmade.
  rewrite save_results_run. cbv zeta.
  cbn [moved set_env env self fs]. fold out.
  set (F := <[data_path out := File (to_csv df)]>
              (<[stats_path out := File (to_json stats)]> f2)).
  assert (HF : F !! out = Some Dir).
  { unfold F. now rewrite !lookup_insert_ne by auto. }
  assert (Hs : F !! stats_path out = Some (File (to_json stats))).
  { unfold F. rewrite lookup_insert_ne by auto. apply lookup_insert_eq. }
  assert (Hc : F !! data_path out = Some (File (to_csv df))).
  { unfold F. apply lookup_insert_eq. }
  assert (Hm : made out F = F) by (unfold made; now rewrite HF).
  assert (Hr : refused F out = None) by (unfold refused; now rewrite HF).
  rewrite Hm, Hr, Hs, Hd, (insert_id F _ _ Hs), Hc, (insert_id F _ _ Hc).
  eexists. split; [reflexivity|]. split; reflexivity.
Qed.

(** *** Whole runs of tabular mode *)






End Codecs.

(** *** The runs above on concrete files *)


Lemma load_data_failure_witness :
  data (self (snd (load_data scenario_parse
                     (processor csv_world "absent.csv" "out"
                        (Some names_frame)))))
  = Some names_frame.
Proof.
  destruct (load_data_failure scenario_parse
              (processor csv_world "absent.csv" "out" (Some names_frame))
              (snd (load_data scenario_parse
                      (processor csv_world "absent.csv" "out"
                         (Some names_frame))))
              (FileNotFoundError "absent.csv")) as (Hself & _ & _).
  - vm_compute. reflexivity.
  - now rewrite Hself.
Defined.



Lemma save_results_dir_is_file_witness :
  save_results scenario_to_csv scenario_to_json (report_of scenario_frame)
    (processor csv_world "data.csv" "data.csv" (Some scenario_frame))
  = (Raise (FileExistsError "data.csv"),
     processor csv_world "data.csv" "data.csv" (Some scenario_frame)).
Proof.
  apply (save_results_dir_is_file scenario_to_csv scenario_to_json
           (report_of scenario_frame)
           (processor csv_world "data.csv" "data.csv" (Some scenario_frame))
           csv_bytes).
  reflexivity.
Defined.


Lemma save_results_again_witness :
  exists st2,
    save_results scenario_to_csv scenario_to_json (report_of scenario_frame)
      (snd (save_results scenario_to_csv scenario_to_json
              (report_of scenario_frame)
              (processor out_world "data.csv" "out" (Some scenario_frame))))
    = (Ok tt, st2) /\
    fs (env st2)
    = fs (env (snd (save_results scenario_to_csv scenario_to_json
                      (report_of scenario_frame)
                      (processor out_world "data.csv" "out"
                         (Some scenario_frame))))).
Proof.
  destruct (save_results_again scenario_to_csv scenario_to_json
              (report_of scenario_frame)
              (processor out_world "data.csv" "out" (Some scenario_frame))
              (snd (save_results scenario_to_csv scenario_to_json
                      (report_of scenario_frame)
                      (processor out_world "data.csv" "out"
                         (Some scenario_frame)))))
    as (st2 & Hrun & _ & Hfs); [vm_compute; reflexivity|].
  exists st2. split; assumption.
Defined.




End TabularRuns.

(* ===================================================================== *)
(** ** Tabular mode: the report *)
(* ===================================================================== *)

Module ReportFacts.
Import Py Eff OS Pandas Tabular Spec Scenario Runs.
Import PyFacts PandasFacts TabularSpec.

(** *** The entries of the report *)

Lemma has_numeric_intro (df : DataFrame) (label : string) (s : Series) :
  (label, s) ∈ cols df -> is_numeric s = true -> has_numeric df = true.
Proof.
  intros Hin Hs. apply existsb_exists. exists (label, s).
  split; [now apply list_elem_of_In | exact Hs].
Qed.

Lemma numeric_column_summary (df : DataFrame) (label : string)
    (s : Series) :
  NoDup (columns df) ->
  (label, s) ∈ cols df ->
  is_numeric s = true ->
  numeric_stats (report_of df) !! label
  = Some (py_dict (describe_numeric_1d s)).
Proof.
  intros Hl Hin Hs. cbn [report_of numeric_stats].
  rewrite (select_data_numeric df (has_numeric_intro df label s Hin Hs)).
  rewrite (summary_lookup _ label s).
  - unfold describe_1d. now rewrite Hs.
  - now apply filter_keys_nodup.
  - apply list_elem_of_In, List.filter_In. split; [|exact Hs].
    now apply list_elem_of_In.
Qed.

Lemma missing_column (df : DataFrame) (label : string) (s : Series) :
  NoDup (columns df) ->
  (label, s) ∈ cols df ->
  missing_values (report_of df) !! label = Some (sum_bool (isnull s)).
Proof.
  intros Hl Hin. cbn [report_of missing_values]. unfold isnull_sum_to_dict.
  apply py_dict_lookup; [now rewrite isnull_sum_keys|].
  unfold isnull_sum. apply list_elem_of_In, List.in_map_iff.
  exists (label, s). split; [reflexivity | now apply list_elem_of_In].
Qed.

Lemma process_data_report (st : state) (df : DataFrame) :
  data (self st) = Some df ->
  cols df <> [] ->
  process_data st = (Ok (report_of df), logged completed st).
Proof. apply process_data_returns. Qed.

Lemma select_data_sub (df : DataFrame) (c : string * Series) :
  In c (select_data df) -> In c (cols df).
Proof.
  unfold select_data.
  destruct (List.filter _ (cols df)) as [|c0 l0] eqn:E; [auto|].
  rewrite <- E. intros H. now apply List.filter_In in H.
Qed.

Lemma select_data_inhabited (df : DataFrame) :
  cols df <> [] -> select_data df <> [].
Proof.
  unfold select_data. intros H.
  destruct (List.filter _ (cols df)); [exact H | discriminate].
Qed.

Lemma sum_bool_none {A} (v : list A) :
  sum_bool (List.map (fun _ => false) v) = 0.
Proof.
  induction v as [|x v IH]; [reflexivity|].
  cbn [List.map]. rewrite sum_bool_cons, IH. reflexivity.
Qed.

Lemma somes_length {A} (v : list (option A)) :
  Z.of_nat (List.length (somes v))
  = Z.of_nat (List.length v) - sum_bool (List.map is_none v).
Proof.
  induction v as [|[a|] v IH]; [reflexivity|..];
    cbn [somes List.map List.length is_none]; rewrite sum_bool_cons; lia.
Qed.

(** The values [describe] counts are the cells [isnull] does not. *)
Lemma non_null_count (s : Series) :
  is_numeric s = true ->
  Z.of_nat (List.length (numbers s))
  = Z.of_nat (series_len s) - sum_bool (isnull s).
Proof.
  destruct s as [v|v|v|v]; try discriminate; intros _;
    cbn [numbers series_len isnull].
  - rewrite List.length_map, sum_bool_none. lia.
  - apply somes_length.
Qed.

(** *** Properties of the report *)

(** Every column that the report describes also has its count of
    missing values, and at least one column is described. *)
Theorem report_keys :
  forall (st : state) (df : DataFrame),
    data (self st) = Some df ->
    cols df <> [] ->
    exists stats st',
      process_data st = (Ok stats, st') /\
      dom (numeric_stats stats) ⊆ dom (missing_values stats) /\
      dom (numeric_stats stats) <> ∅.
Proof.
  intros st df Hd Hc. exists (report_of df), (logged completed st).
  split; [now apply process_data_report|].
  cbn [report_of numeric_stats missing_values].
  unfold summary_to_dict, isnull_sum_to_dict.
  rewrite !py_dict_dom, isnull_sum_keys, !List.map_map. cbn [fst].
  split.
  - intros k. rewrite !elem_of_list_to_set. intros Hk.
    apply list_elem_of_In, List.in_map_iff in Hk as (c & <- & Hin).
    apply list_elem_of_In, List.in_map. now apply select_data_sub.
  - pose proof (select_data_inhabited df Hc) as Hs.
    destruct (select_data df) as [|c l]; [congruence|].
    cbn [List.map list_to_set]. set_solver.
Qed.

(** For a numeric column, the count in [numeric_stats] and the entry of
    [missing_values] add up to [row_count]. *)
Theorem count_plus_missing :
  forall (st : state) (df : DataFrame) (label : string) (s : Series),
    data (self st) = Some df ->
    loaded df ->
    (label, s) ∈ cols df ->
    is_numeric s = true ->
    exists stats st' m k,
      process_data st = (Ok stats, st') /\
      numeric_stats stats !! label = Some m /\
      missing_values stats !! label = Some k /\
      m !! "count"%string = Some (Float (inject_Z (row_count stats - k))).
Proof.
  intros st df label s Hd [Hc Hl Hr _] Hin Hs.
  exists (report_of df), (logged completed st),
    (py_dict (describe_numeric_1d s)), (sum_bool (isnull s)).
  split; [now apply process_data_report|].
  split; [now apply numeric_column_summary|].
  split; [now apply missing_column|].
  cbn [report_of row_count]. unfold df_len.
  rewrite Forall_forall in Hr. rewrite <- (Hr (label, s) Hin). cbn [snd].
  rewrite <- (non_null_count s Hs). reflexivity.
Qed.

(** Each entry of [missing_values] lies between 0 and [row_count], and
    is 0 for a column of integers or of booleans. *)
Theorem missing_values_range :
  forall (st : state) (df : DataFrame) (label : string) (s : Series),
    data (self st) = Some df ->
    loaded df ->
    (label, s) ∈ cols df ->
    exists stats st' k,
      process_data st = (Ok stats, st') /\
      missing_values stats !! label = Some k /\
      0 <= k <= row_count stats /\
      match s with
      | Int64 _ | Bool _ => k = 0
      | _ => True
      end.
Proof.
  intros st df label s Hd [Hc Hl Hr _] Hin.
  exists (report_of df), (logged completed st), (sum_bool (isnull s)).
  split; [now apply process_data_report|].
  split; [now apply missing_column|].
  split.
  - pose proof (sum_bool_bounds (isnull s)) as Hb. unfold len in Hb.
    rewrite isnull_length in Hb.
    rewrite Forall_forall in Hr. specialize (Hr (label, s) Hin).
    cbn [snd] in Hr. cbn [report_of row_count]. unfold df_len. lia.
  - destruct s; cbn [isnull]; auto using sum_bool_none.
Qed.

(** *** The report of the scenario *)

Lemma report_keys_witness :
  exists stats st',
    process_data (holding names_frame) = (Ok stats, st') /\
    dom (numeric_stats stats) ⊆ dom (missing_values stats) /\
    dom (numeric_stats stats) <> ∅.
Proof.
  apply (report_keys (holding names_frame) names_frame);
    [reflexivity | discriminate].
Defined.

Lemma count_plus_missing_witness :
  exists stats st' m k,
    process_data (holding scenario_frame) = (Ok stats, st') /\
    numeric_stats stats !! "b"%string = Some m /\
    missing_values stats !! "b"%string = Some k /\
    m !! "count"%string = Some (Float (inject_Z (row_count stats - k))).
Proof.
  apply (count_plus_missing (holding scenario_frame) scenario_frame
           "b" (Float64 [Some 2%Q; None]));
    [reflexivity | exact scenario_loaded | repeat constructor | reflexivity].
Defined.

Lemma missing_values_range_witness :
  exists stats st' k,
    process_data (holding scenario_frame) = (Ok stats, st') /\
    missing_values stats !! "a"%string = Some k /\
    0 <= k <= row_count stats /\ k = 0.
Proof.
  apply (missing_values_range (holding scenario_frame) scenario_frame
           "a" (Int64 [1; 3]));
    [reflexivity | exact scenario_loaded | repeat constructor].
Defined.

End ReportFacts.
